(** * ThermoPro TempSpike XR TP862b / TP863b decoder

    A shallow embedding of [src/devices/thermopro_tp86xb.c] and the
    properties of its frame locator, integrity validator, field extractor
    and record builder.

    C integers are modelled as [Z] with the conversions written out
    ([to_uint8], [to_uint16], [to_int8]); the [float] arithmetic of the
    temperature conversion is modelled with the IEEE 754 binary32
    instance of [SpecFloat]. *)

From Stdlib Require Import ZArith List String Bool Lia.
From Stdlib Require Import Floats.SpecFloat.
Import ListNotations.

Local Open Scope string_scope.
Local Open Scope Z_scope.

(** ** C integer conversions *)

Module CInt.

(** Conversion to [uint8_t]: reduction modulo 2^8. *)
Definition to_uint8 (x : Z) : Z := Z.land x 0xff.

(** Conversion to [uint16_t]: reduction modulo 2^16. *)
Definition to_uint16 (x : Z) : Z := Z.land x 0xffff.

(** Conversion to [int8_t]: two's complement wrap-around. *)
Definition to_int8 (x : Z) : Z :=
  let y := Z.land x 0xff in
  if 0x80 <=? y then y - 0x100 else y.

(** The value of a C comparison, an [int] that is 0 or 1. *)
Definition of_bool (c : bool) : Z := if c then 1 else 0.

(** Range of a [uint8_t]. *)
Definition is_uint8 (x : Z) : bool := (0 <=? x) && (x <? 0x100).

(** [0; 1; ...; n-1] as [Z], the index range of a C [for] loop. *)
Definition zrange (n : nat) : list Z := map Z.of_nat (seq 0 n).

End CInt.
Import CInt.

(** ** The bit buffer (declared in [bitbuffer.h], implemented in [bitbuffer.c]) *)

Module Bitbuffer.

(** Modelled from the spec: [bitbuffer_t] of [bitbuffer.h], whose
    declaration is not available.  The input is "a single logical bit row, accessible
    by length in bits and by arbitrary bit offset extraction into
    byte-aligned buffers"; the decoder reads [num_rows], [bits_per_row[0]]
    and row 0 of the bit storage [bb].  A row is stored as bytes, most
    significant bit first; storage that is not listed reads as zero. *)
Record bitbuffer_t : Type := mkBitbuffer {
  num_rows     : Z;
  bits_per_row : list Z;
  bb           : list (list Z)
}.

(** [bitbuffer->bb[row]] *)
Definition row_bits (bitbuffer : bitbuffer_t) (row : nat) : list Z :=
  nth row (bb bitbuffer) [].

(** [bitbuffer->bits_per_row[row]] *)
Definition row_len (bitbuffer : bitbuffer_t) (row : nat) : Z :=
  nth row (bits_per_row bitbuffer) 0.

(** Modelled from the spec: bit [bit] of a byte array as 0 or 1, "bit 0 =
    MSB of byte 0". *)
Definition bit_at (bytes : list Z) (bit : Z) : Z :=
  Z.land (Z.shiftr (nth (Z.to_nat (Z.shiftr bit 3)) bytes 0)
                   (7 - Z.land bit 7)) 1.

(** Modelled from the spec: does [pattern], a "fixed bit string" of
    [pattern_bits_len] bits, occur at bit [pos]? *)
Definition match_at (bits : list Z) (pos : Z)
           (pattern : list Z) (pattern_bits_len : Z) : bool :=
  forallb (fun j => bit_at bits (pos + j) =? bit_at pattern j)
          (zrange (Z.to_nat pattern_bits_len)).

(** Modelled from the spec: the first position from [pos] on at which the
    pattern occurs with all its bits before bit [len]; [len] when there is
    none among the next [fuel] positions. *)
Fixpoint search_from (bits : list Z) (len : Z)
         (pattern : list Z) (pattern_bits_len : Z)
         (pos : Z) (fuel : nat) : Z :=
  match fuel with
  | O => len
  | S fuel' =>
      if (pos + pattern_bits_len <=? len)
         && match_at bits pos pattern pattern_bits_len
      then pos
      else search_from bits len pattern pattern_bits_len (pos + 1) fuel'
  end.

(** Modelled from the spec: [bitbuffer_search] of [bitbuffer.c], whose
    source is not available.  It finds "the first occurrence of the [...]
    synchronization pattern [...] searched at bit granularity"; when "no
    match is found before the end of the buffer" the result is the row
    length, which the decoder tests with [offset >= msg_len]. *)
Definition bitbuffer_search (bitbuffer : bitbuffer_t) (row : nat) (start : Z)
           (pattern : list Z) (pattern_bits_len : Z) : Z :=
  let len := row_len bitbuffer row in
  search_from (row_bits bitbuffer row) len pattern pattern_bits_len
              start (Z.to_nat (len - start)).

(** Modelled from the spec: the byte made of the 8 bits that start at bit
    [pos], MSB first. *)
Definition byte_from (bits : list Z) (pos : Z) : Z :=
  fold_left (fun acc j => Z.lor (Z.shiftl acc 1) (bit_at bits (pos + j)))
            (zrange 8) 0.

(** Modelled from the spec: [bitbuffer_extract_bytes] of [bitbuffer.c],
    whose source is not available.  It performs the "arbitrary bit offset extraction
    into byte-aligned buffers": output byte [k] holds the bits
    [pos + 8k .. pos + 8k + 7] of the row.  It returns nothing and reports
    no error; [len] is a multiple of 8 in the decoder. *)
Definition bitbuffer_extract_bytes (bitbuffer : bitbuffer_t) (row : nat)
           (pos : Z) (len : Z) : list Z :=
  map (fun k => byte_from (row_bits bitbuffer row) (pos + 8 * k))
      (zrange (Z.to_nat ((len + 7) / 8))).

End Bitbuffer.
Import Bitbuffer.

(** ** CRC-8 (declared in [util.h]) *)

Module Crc.

(** Modelled from the spec: one step of the "bit-by-bit CRC-8, MSB-first",
    a shift of the register, with the polynomial XORed in when the bit
    shifted out is set. *)
Definition crc8_bit (polynomial remainder : Z) : Z :=
  if Z.land remainder 0x80 =? 0
  then to_uint8 (Z.shiftl remainder 1)
  else to_uint8 (Z.lxor (Z.shiftl remainder 1) polynomial).

(** Modelled from the spec: one message byte of the bit-by-bit CRC-8; the
    byte is XORed into the register ("no input [...] reflection"), which is
    then shifted 8 times. *)
Definition crc8_byte (polynomial remainder byte : Z) : Z :=
  Nat.iter 8 (crc8_bit polynomial) (to_uint8 (Z.lxor remainder byte)).

(** Modelled from the spec: [crc8] of [util.c], whose source is not
    available.  It is the "standard bit-by-bit CRC-8, MSB-first, no input/output
    reflection" over the first [nBytes] bytes of [message], with the given
    polynomial and initial register value. *)
Definition crc8 (message : list Z) (nBytes : Z) (polynomial init : Z) : Z :=
  fold_left (crc8_byte polynomial) (firstn (Z.to_nat nBytes) message) init.

(** The CRC register after the 8 shifts of one byte. *)
Definition shift8 (polynomial x : Z) : Z :=
  Nat.iter 8 (crc8_bit polynomial) x.

(** The change of the CRC that a change [e] of one message byte makes when
    [k] more bytes follow it: the CRC of [e] followed by [k] zero bytes. *)
Definition syndrome (polynomial e : Z) (k : nat) : Z :=
  fold_left (crc8_byte polynomial) (repeat 0 k) (shift8 polynomial e).

End Crc.
Import Crc.

(** ** binary32 arithmetic *)

Module F32.

Definition prec : Z := 24.
Definition emax : Z := 128.

(** Conversion of an [int] to [float]. *)
Definition of_int (n : Z) : spec_float := binary_normalize prec emax n 0 false.

(** The literal [0.1f], 0x3DCCCCCD: 13421773 * 2^-27. *)
Definition lit_0_1 : spec_float := S754_finite false 13421773 (-27).

(** The binary32 product, rounded to nearest, ties to even. *)
Definition mul (x y : spec_float) : spec_float := SFmul prec emax x y.

(** Round [num / den] ([den > 0], [num >= 0]) to the nearest integer, ties
    to even. *)
Definition round_half_even (num den : Z) : Z :=
  let q := num / den in
  let r := num mod den in
  if 2 * r <? den then q
  else if den <? 2 * r then q + 1
  else if Z.even q then q else q + 1.

(** The decimal that the format ["%.1f"] shows for a finite value, in
    tenths: the exact value [m * 2^e] times ten, rounded to an integer. *)
Definition tenths (x : spec_float) : option Z :=
  match x with
  | S754_zero _ => Some 0
  | S754_finite s m e =>
      Some (cond_Zopp s (round_half_even (10 * Z.pos m * 2 ^ Z.max e 0)
                                         (2 ^ Z.max (- e) 0)))
  | _ => None
  end.

(** [|x - k/10| <= 1/10000] for a finite [x = m * 2^e]: the distance of
    the value to the decimal [k/10], compared exactly (both sides scaled by
    [10000 * 2^(-e)]). *)
Definition near_tenth (x : spec_float) (k : Z) : bool :=
  match x with
  | S754_zero _ => k =? 0
  | S754_finite s m e =>
      let v := cond_Zopp s (Z.pos m) in
      Z.abs (10000 * v * 2 ^ Z.max e 0 - 1000 * k * 2 ^ Z.max (- e) 0)
        <=? 2 ^ Z.max (- e) 0
  | _ => false
  end.

End F32.
Import F32.

(** ** The decoder's collaborators: return codes, log and output records *)

Module Decoder.

(** Modelled from the spec: the return codes of [decoder.h], whose
    declaration (and numbering) is not available, kept as the names the
    decoder uses; [RETURN n] is a plain [return n]. *)
Inductive decode_return : Type :=
| DECODE_ABORT_LENGTH
| DECODE_ABORT_EARLY
| DECODE_FAIL_MIC
| DECODE_FAIL_SANITY
| RETURN (n : Z).

(** Modelled from the spec: one call of [decoder_log] / [decoder_logf], the
    "diagnostic-level log" with "expected vs. actual values": verbosity
    level, format string and the integer arguments as they are passed (after the integer
    promotions). *)
Record log_entry : Type := Log {
  log_level : Z;
  log_msg   : string;
  log_args  : list Z
}.

(** Modelled from the spec: the value types of [data.h] that the decoder
    uses, for a "structured record with named fields". *)
Inductive data_value : Type :=
| DATA_STRING (s : string)
| DATA_INT (n : Z)
| DATA_DOUBLE (x : spec_float).

(** Modelled from the spec: one argument group of [data_make]: key, pretty key, an optional
    [DATA_COND] condition, an optional [DATA_FORMAT] and the typed value. *)
Record data_arg : Type := Arg {
  arg_key    : string;
  arg_pretty : string;
  arg_cond   : option Z;
  arg_format : option string;
  arg_value  : data_value
}.

(** Modelled from the spec: one named field of the output record. *)
Record data_field : Type := Field {
  key    : string;
  pretty : string;
  format : option string;
  value  : data_value
}.

(** Modelled from the spec: the output record, its fields in order. *)
Definition data_t : Type := list data_field.

(** Modelled from the spec: an optional field is "present only if true",
    that is when its condition is not zero. *)
Definition arg_included (a : data_arg) : bool :=
  match arg_cond a with
  | Some c => negb (c =? 0)
  | None => true
  end.

(** Modelled from the spec: [data_make] of [data.c], whose source is not
    available.  It builds the record from the argument groups in order; a
    group with a condition is an optional field, "present only if true". *)
Definition data_make (args : list data_arg) : data_t :=
  map (fun a => Field (arg_key a) (arg_pretty a) (arg_format a) (arg_value a))
      (filter arg_included args).

(** What one call of the decoder does: the value it returns, the log lines
    it writes and the records it hands to [decoder_output_data]. *)
Record result : Type := Result {
  ret    : decode_return;
  logged : list log_entry;
  output : list data_t
}.

(** A log line followed by [return code]. *)
Definition fail (code : decode_return) (l : log_entry) : result :=
  Result code [l] [].

(** The field names of a record. *)
Definition keys (d : data_t) : list string := map key d.

(** Is the field [k] in the record? *)
Definition has_key (k : string) (d : data_t) : bool :=
  existsb (String.eqb k) (keys d).

(** The value of the field [k] of the record. *)
Definition lookup (k : string) (d : data_t) : option data_value :=
  option_map value (find (fun f => String.eqb k (key f)) d).

End Decoder.
Import Decoder.

(** ** [thermopro_tp86xb_decode] *)

Module Thermopro.

Definition preamble_pattern : list Z := [0xd2; 0x55; 0x2d; 0xd4].

(** [sizeof(preamble_pattern) * 8] *)
Definition preamble_bits : Z := Z.of_nat (List.length preamble_pattern) * 8.

(** [b[i]] for the local array [uint8_t b[9]]. *)
Definition at_ (b : list Z) (i : nat) : Z := nth i b 0.

(** The local variables of lines 93-105. *)
Record fields : Type := Fields {
  id              : Z;
  is_white        : Z;
  is_docked       : Z;
  internal_raw    : Z;
  ambient_raw     : Z;
  is_probe        : Z;
  is_booster      : Z;
  probe_battery   : Z;
  booster_battery : Z;
  internal_c      : spec_float;
  ambient_c       : spec_float
}.

(** [(raw - 500) * 0.1f]: the subtraction is done on [int], the result is
    converted to [float] and multiplied in binary32. *)
Definition raw_to_celsius (raw : Z) : spec_float :=
  F32.mul (F32.of_int (raw - 500)) F32.lit_0_1.

(** Lines 93-105. *)
Definition extract_fields (b : list Z) : fields :=
  let id              := to_uint8 (at_ b 0) in
  let is_white        := to_int8 (Z.shiftr (Z.land (at_ b 1) 0x10) 4) in
  let is_docked       := to_uint8 (Z.shiftr (Z.land (at_ b 1) 0x40) 6) in
  let internal_raw    :=
    to_uint16 (Z.lor (Z.shiftl (at_ b 2) 4) (Z.shiftr (at_ b 3) 4)) in
  let ambient_raw     :=
    to_uint16 (Z.lor (Z.shiftl (Z.land (at_ b 3) 0x0f) 8) (at_ b 4)) in
  let is_probe        := to_uint8 (of_bool (Z.land (at_ b 6) 0x0c =? 0x0c)) in
  let is_booster      := to_uint8 (of_bool (Z.land (at_ b 5) 0xc0 =? 0xc0)) in
  let probe_battery   := to_uint8 (Z.shiftr (Z.land (at_ b 6) 0x30) 4) in
  let booster_battery := to_uint8 (Z.land (at_ b 6) 0x03) in
  let internal_c      := raw_to_celsius internal_raw in
  let ambient_c       := raw_to_celsius ambient_raw in
  Fields id is_white is_docked internal_raw ambient_raw is_probe is_booster
         probe_battery booster_battery internal_c ambient_c.

(** Lines 108-120: the argument groups given to [data_make]. *)
Definition data_args (f : fields) : list data_arg :=
  [ Arg "model" "" None None (DATA_STRING "ThermoPro-TempSpikeXR");
    Arg "id" "" None (Some "%02x") (DATA_INT (id f));
    Arg "color" "Color" None None
        (DATA_STRING (if negb (is_white f =? 0) then "white" else "black"));
    Arg "is_docked" "Is Docked" (Some (is_docked f)) None
        (DATA_INT (is_docked f));
    Arg "temperature_int_C" "Internal" None (Some "%.1f C")
        (DATA_DOUBLE (internal_c f));
    Arg "temperature_amb_C" "Ambient" None (Some "%.1f C")
        (DATA_DOUBLE (ambient_c f));
    Arg "is_probe" "Is Probe" (Some (is_probe f)) None (DATA_INT (is_probe f));
    Arg "is_booster" "Is Booster" (Some (is_booster f)) None
        (DATA_INT (is_booster f));
    Arg "probe_batery" "Probe Battery" (Some (is_probe f)) None
        (DATA_INT (probe_battery f));
    Arg "booster_battery" "Booster Battery" (Some (is_booster f)) None
        (DATA_INT (booster_battery f));
    Arg "mic" "Integrity" None None (DATA_STRING "CRC") ].

(** Lines 93-124: extraction, [data_make], [decoder_output_data],
    [return 1]. *)
Definition emit (b : list Z) : result :=
  Result (RETURN 1) [] [data_make (data_args (extract_fields b))].

(** Line 81, the condition [b[7] == ~b[8]]: both operands are promoted to
    [int] before [~] and [==] are applied, so the right-hand side is the
    complement of an [int]. *)
Definition format_check_fails (b : list Z) : bool :=
  at_ b 7 =? Z.lnot (at_ b 8).

(** Line 87: [uint8_t calc_crc = crc8(b, 7, 0x07, 0x00) ^ 0xdb]. *)
Definition calc_crc (b : list Z) : Z :=
  to_uint8 (Z.lxor (crc8 b 7 0x07 0x00) 0xdb).

(** Lines 80-124: what the decoder does with the extracted window [b]. *)
Definition decode_window (b : list Z) : result :=
  if format_check_fails b then
    fail DECODE_FAIL_MIC
         (Log 2 "Checksum byte 7 is supposed to be equal to byte 8 inverted. Actual: %02x vs %02x (inverted %02x)"
              [at_ b 7; at_ b 8; Z.lnot (at_ b 8)])
  else if negb (calc_crc b =? at_ b 7) then
    fail DECODE_FAIL_MIC
         (Log 2 "Integrity check failed %02x vs %02x" [at_ b 7; calc_crc b])
  else emit b.

(** Lines 69-78: search for the sync word and extraction of the window.
    An early [return] is the left summand. *)
Definition search_window (bitbuffer : bitbuffer_t) (msg_len : Z)
  : result + list Z :=
  let offset := bitbuffer_search bitbuffer 0 0 preamble_pattern preamble_bits in
  if msg_len <=? offset then
    inl (fail DECODE_ABORT_EARLY (Log 1 "Sync word not found" []))
  else
    let offset := offset + preamble_bits in
    inr (bitbuffer_extract_bytes bitbuffer 0 offset (9 * 8)).

(** Lines 55-78: the checks on the row count and the row length, then the
    search. *)
Definition locate_window (bitbuffer : bitbuffer_t) : result + list Z :=
  if 1 <? num_rows bitbuffer then
    inl (fail DECODE_FAIL_SANITY
              (Log 1 "Too many rows: %d" [num_rows bitbuffer]))
  else
    let msg_len := row_len bitbuffer 0 in
    if msg_len <? 165 then
      inl (fail DECODE_ABORT_LENGTH
                (Log 1 "Packet too short: %d bits" [msg_len]))
    else if 173 <? msg_len then
      inl (fail DECODE_ABORT_LENGTH
                (Log 1 "Packet too long: %d bits" [msg_len]))
    else search_window bitbuffer msg_len.

(** The whole function, lines 49-125. *)
Definition thermopro_tp86xb_decode (bitbuffer : bitbuffer_t) : result :=
  match locate_window bitbuffer with
  | inl early => early
  | inr b => decode_window b
  end.

(** *** The error names of the specification, as results of the decoder *)

Definition TooManyRows (n : Z) : result :=
  fail DECODE_FAIL_SANITY (Log 1 "Too many rows: %d" [n]).
Definition TooShort (len : Z) : result :=
  fail DECODE_ABORT_LENGTH (Log 1 "Packet too short: %d bits" [len]).
Definition TooLong (len : Z) : result :=
  fail DECODE_ABORT_LENGTH (Log 1 "Packet too long: %d bits" [len]).
Definition SyncNotFound : result :=
  fail DECODE_ABORT_EARLY (Log 1 "Sync word not found" []).
Definition ChecksumFormatInvalid (b : list Z) : result :=
  fail DECODE_FAIL_MIC
       (Log 2 "Checksum byte 7 is supposed to be equal to byte 8 inverted. Actual: %02x vs %02x (inverted %02x)"
            [at_ b 7; at_ b 8; Z.lnot (at_ b 8)]).
Definition ChecksumMismatch (b : list Z) : result :=
  fail DECODE_FAIL_MIC
       (Log 2 "Integrity check failed %02x vs %02x" [at_ b 7; calc_crc b]).

(** A window: the 9 elements of [uint8_t b[9]]. *)
Definition is_window (b : list Z) : bool :=
  (List.length b =? 9)%nat && forallb is_uint8 b.

(** A window passes validation when neither check of lines 81 and 88
    fails. *)
Definition valid_window (b : list Z) : bool :=
  negb (format_check_fails b) && (calc_crc b =? at_ b 7).

(** The field of [width] bits that starts at bit [pos] of the window, read
    as an unsigned number, MSB first (bit 0 is the MSB of byte 0): the
    layout table of the field extractor in the specification's words. *)
Definition bit_field (b : list Z) (pos : Z) (width : nat) : Z :=
  fold_left (fun acc j => 2 * acc + bit_at b (pos + j)) (zrange width) 0.

(** The window [b] with bit [j] (of weight [2^j]) of byte [i] flipped. *)
Definition flip_bit (b : list Z) (i : nat) (j : Z) : list Z :=
  (firstn i b ++ Z.lxor (at_ b i) (Z.shiftl 1 j) :: skipn (S i) b)%list.

(** The intended trailer: byte 8 is the complement of byte 7, as bytes. *)
Definition is_complement (b : list Z) : bool :=
  at_ b 8 =? to_uint8 (Z.lnot (at_ b 7)).

(** The first example capture of the source's documentation,
    [{74}9c9a2bc2c50b1fa8570], trimmed to 9 bytes. *)
Definition example_window : list Z :=
  [0x9c; 0x9a; 0x2b; 0xc2; 0xc5; 0x0b; 0x1f; 0xa8; 0x57].

(** The second example capture of the source's documentation,
    [{77}9c9a2bc2c5cb116f0000], trimmed to 9 bytes. *)
Definition example_window_booster : list Z :=
  [0x9c; 0x9a; 0x2b; 0xc2; 0xc5; 0xcb; 0x11; 0x6f; 0x00].

(** A window with both role markers set and a matching checksum. *)
Definition both_roles_window : list Z :=
  [0x9c; 0x9a; 0x2b; 0xc2; 0xc5; 0xcb; 0x1f; 0x45; 0xba].

(** A row of 165 bits: 96 zero bits, the sync word at bit 96, and zero bits
    after it.  The 72-bit window after the sync word spans the bits 128 to
    199, past the row's 165 bits. *)
Definition late_sync_buffer : bitbuffer_t :=
  mkBitbuffer 1 [165]
    [[0; 0; 0; 0; 0; 0; 0; 0; 0; 0; 0; 0; 0xd2; 0x55; 0x2d; 0xd4;
      0; 0; 0; 0; 0; 0; 0; 0; 0]].

(** A row of 165 bits with the sync word at bit 56 and the first example
    capture after it (bits 88 to 159). *)
Definition example_buffer : bitbuffer_t :=
  mkBitbuffer 1 [165]
    [[0xaa; 0xaa; 0xaa; 0xaa; 0xaa; 0xaa; 0xaa; 0xd2; 0x55; 0x2d; 0xd4;
      0x9c; 0x9a; 0x2b; 0xc2; 0xc5; 0x0b; 0x1f; 0xa8; 0x57; 0x00]].

(** The same row with byte 8 of the window replaced by [0x00]. *)
Definition example_buffer_byte8 : bitbuffer_t :=
  mkBitbuffer 1 [165]
    [[0xaa; 0xaa; 0xaa; 0xaa; 0xaa; 0xaa; 0xaa; 0xd2; 0x55; 0x2d; 0xd4;
      0x9c; 0x9a; 0x2b; 0xc2; 0xc5; 0x0b; 0x1f; 0xa8; 0x00; 0x00]].

End Thermopro.
Import Thermopro.

(** ** The device registration, lines 127-150 *)

Module Device.

(** Lines 127-140; the terminating [NULL] is the end of the list. *)
Definition output_fields : list string :=
  [ "model";
    "id";
    "color";
    "is_docked";
    "temperature_int_C";
    "temperature_amb_C";
    "is_probe";
    "is_booster";
    "probe_batery";
    "booster_battery";
    "mic" ].

(** Modelled from the spec: the modulation of [decoder.h] that the device
    names, "pulse-code modulation over frequency-shift keying". *)
Inductive modulation_t : Type :=
| FSK_PULSE_PCM.

(** Modelled from the spec: [r_device] of [decoder.h], whose declaration is
    not available, with the members that lines 142-150 initialise. *)
Record r_device : Type := mkDevice {
  name        : string;
  modulation  : modulation_t;
  short_width : Z;
  long_width  : Z;
  reset_limit : Z;
  decode_fn   : bitbuffer_t -> result;
  fields      : list string
}.

(** Lines 142-150. *)
Definition thermopro_tp86xb : r_device :=
  {| name        := "ThermoPro TempSpike XR TP862b / TP863b Wireless Dual-Probe Meat Thermometer";
     modulation  := FSK_PULSE_PCM;
     short_width := 104;
     long_width  := 104;
     reset_limit := 2000;
     decode_fn   := thermopro_tp86xb_decode;
     fields      := output_fields |}.

End Device.

(** ** Auxiliary notions for the properties of the decoder *)

Module Aux.

(** Is [l] a subsequence of [m]: the elements of [l], in their order, among
    those of [m]? *)
Fixpoint is_subseq (l m : list string) : bool :=
  match l, m with
  | [], _ => true
  | _ :: _, [] => false
  | x :: l', y :: m' =>
      if String.eqb x y then is_subseq l' m' else is_subseq l m'
  end.

(** The window [b] with byte [i] replaced by [v]. *)
Definition set_byte (b : list Z) (i : nat) (v : Z) : list Z :=
  (firstn i b ++ v :: skipn (S i) b)%list.

(** What the comparison of line 88 compares, as one number: zero exactly
    when [calc_crc] equals [b[7]]. *)
Definition residual (b : list Z) : Z := Z.lxor (calc_crc b) (at_ b 7).

(** The change of the residual that flipping bit [j] of byte [i] makes:
    the CRC syndrome for a payload byte (0 to 6), the bit itself for the
    checksum byte 7. *)
Definition position_syndrome (i : nat) (j : Z) : Z :=
  if (i =? 7)%nat then Z.shiftl 1 j
  else syndrome 0x07 (Z.shiftl 1 j) (6 - i).

(** A finite binary32 value in canonical form: not a NaN, not an
    infinity. *)
Definition is_finite_f32 (x : spec_float) : bool :=
  match x with
  | S754_zero _ => true
  | S754_finite _ _ _ => valid_binary F32.prec F32.emax x
  | _ => false
  end.

(** A row of 165 zero bits: no sync word in it. *)
Definition zero_buffer : bitbuffer_t :=
  mkBitbuffer 1 [165]
    [[0; 0; 0; 0; 0; 0; 0; 0; 0; 0; 0; 0; 0; 0; 0; 0; 0; 0; 0; 0; 0]].

(** Two rows in one buffer, the first of them the example row. *)
Definition two_row_buffer : bitbuffer_t :=
  mkBitbuffer 2 [165; 165]
    [[0xaa; 0xaa; 0xaa; 0xaa; 0xaa; 0xaa; 0xaa; 0xd2; 0x55; 0x2d; 0xd4;
      0x9c; 0x9a; 0x2b; 0xc2; 0xc5; 0x0b; 0x1f; 0xa8; 0x57; 0x00];
     [0xaa; 0xaa; 0xaa; 0xaa; 0xaa; 0xaa; 0xaa; 0xd2; 0x55; 0x2d; 0xd4;
      0x9c; 0x9a; 0x2b; 0xc2; 0xc5; 0x0b; 0x1f; 0xa8; 0x57; 0x00]].

End Aux.
Import Aux.


(** ** Range facts *)

Section Ranges.

Lemma is_uint8_spec x : is_uint8 x = true <-> 0 <= x < 256.
Proof. unfold is_uint8. rewrite andb_true_iff, Z.leb_le, Z.ltb_lt. lia. Qed.

Lemma to_uint8_mod x : to_uint8 x = x mod 256.
Proof.
  unfold to_uint8. change 0xff with (Z.ones 8).
  now rewrite Z.land_ones by lia.
Qed.

Lemma to_uint8_range x : is_uint8 (to_uint8 x) = true.
Proof.
  apply is_uint8_spec. rewrite to_uint8_mod.
  apply Z.mod_pos_bound. lia.
Qed.

Lemma to_uint8_id x : is_uint8 x = true -> to_uint8 x = x.
Proof.
  intros H. apply is_uint8_spec in H.
  rewrite to_uint8_mod. now apply Z.mod_small.
Qed.

Lemma in_zrange n x : 0 <= x < Z.of_nat n -> In x (zrange n).
Proof.
  intros H. unfold zrange. apply in_map_iff.
  exists (Z.to_nat x). split; [lia|]. apply in_seq. lia.
Qed.

(** A property checked on the 256 byte values holds of every byte. *)
Lemma forall_uint8 (P : Z -> bool) :
  forallb P (zrange 256) = true ->
  forall x, is_uint8 x = true -> P x = true.
Proof.
  intros H x Hx. rewrite forallb_forall in H. apply H.
  apply in_zrange. apply is_uint8_spec in Hx. lia.
Qed.

Lemma forall_uint8_2 (P : Z -> Z -> bool) :
  forallb (fun x => forallb (P x) (zrange 256)) (zrange 256) = true ->
  forall x y, is_uint8 x = true -> is_uint8 y = true -> P x y = true.
Proof.
  intros H x y Hx Hy.
  apply (forall_uint8 (P x)); [|exact Hy].
  apply (forall_uint8 (fun x => forallb (P x) (zrange 256)) H x Hx).
Qed.

Lemma lxor_uint8 x y :
  is_uint8 x = true -> is_uint8 y = true -> is_uint8 (Z.lxor x y) = true.
Proof.
  revert x y.
  apply (forall_uint8_2 (fun x y => is_uint8 (Z.lxor x y))).
  now vm_compute.
Qed.

End Ranges.

(** ** Windows *)

Section Windows.

Lemma is_window_inv b :
  is_window b = true ->
  exists b0 b1 b2 b3 b4 b5 b6 b7 b8,
    b = [b0; b1; b2; b3; b4; b5; b6; b7; b8] /\
    is_uint8 b0 = true /\ is_uint8 b1 = true /\ is_uint8 b2 = true /\
    is_uint8 b3 = true /\ is_uint8 b4 = true /\ is_uint8 b5 = true /\
    is_uint8 b6 = true /\ is_uint8 b7 = true /\ is_uint8 b8 = true.
Proof.
  unfold is_window. rewrite andb_true_iff, Nat.eqb_eq. intros [Hlen Hall].
  do 9 (destruct b as [|? b]; [discriminate Hlen|]).
  destruct b; [|discriminate Hlen].
  cbn [forallb] in Hall. rewrite !andb_true_iff in Hall.
  do 9 eexists. split; [reflexivity|]. tauto.
Qed.

Lemma is_window_at b i :
  is_window b = true -> is_uint8 (at_ b i) = true.
Proof.
  intros H. apply is_window_inv in H.
  destruct H as (b0 & b1 & b2 & b3 & b4 & b5 & b6 & b7 & b8 & -> & H).
  do 9 (destruct i as [|i]; [cbn; tauto|]).
  unfold at_. now destruct i.
Qed.

Lemma bit_at_01 bytes i : bit_at bytes i = 0 \/ bit_at bytes i = 1.
Proof.
  unfold bit_at. change 1 with (Z.ones 1) at 1 2.
  rewrite Z.land_ones by lia. change (2 ^ 1) with 2.
  match goal with |- ?x mod 2 = _ \/ _ =>
    pose proof (Z.mod_pos_bound x 2 ltac:(lia)) end.
  lia.
Qed.

Lemma byte_from_range bits pos : is_uint8 (byte_from bits pos) = true.
Proof.
  assert (H : forall a b c d e f g h,
             (a = 0 \/ a = 1) -> (b = 0 \/ b = 1) -> (c = 0 \/ c = 1) ->
             (d = 0 \/ d = 1) -> (e = 0 \/ e = 1) -> (f = 0 \/ f = 1) ->
             (g = 0 \/ g = 1) -> (h = 0 \/ h = 1) ->
             is_uint8 (fold_left (fun acc x => Z.lor (Z.shiftl acc 1) x)
                                 [a; b; c; d; e; f; g; h] 0) = true).
  { intros a b c d e f g h Ha Hb Hc Hd He Hf Hg Hh.
    destruct Ha, Hb, Hc, Hd, He, Hf, Hg, Hh; subst; reflexivity. }
  unfold byte_from.
  change (zrange 8) with [0; 1; 2; 3; 4; 5; 6; 7].
  cbn [fold_left] in *.
  apply H; apply bit_at_01.
Qed.

(** What [bitbuffer_extract_bytes] writes into [b] is a window, whatever
    the row holds. *)
Lemma extract_is_window bitbuffer pos :
  is_window (bitbuffer_extract_bytes bitbuffer 0 pos (9 * 8)) = true.
Proof.
  unfold is_window, bitbuffer_extract_bytes.
  change (Z.to_nat ((9 * 8 + 7) / 8)) with 9%nat.
  apply andb_true_iff. split; [reflexivity|].
  apply forallb_forall. intros x Hx.
  apply in_map_iff in Hx. destruct Hx as (k & <- & _).
  apply byte_from_range.
Qed.

(** The comparison of line 81 is never true: the left operand is a byte
    value, the right operand a negative [int]. *)
Lemma format_check_never_fails b :
  is_window b = true -> format_check_fails b = false.
Proof.
  intros H. unfold format_check_fails.
  pose proof (is_window_at b 7 H) as H7.
  pose proof (is_window_at b 8 H) as H8.
  apply is_uint8_spec in H7, H8.
  apply Z.eqb_neq. unfold Z.lnot. lia.
Qed.

(** On a window the decoder's outcome is settled by the CRC comparison
    alone. *)
Lemma decode_window_crc b :
  is_window b = true ->
  decode_window b =
    if calc_crc b =? at_ b 7 then emit b else ChecksumMismatch b.
Proof.
  intros H. unfold decode_window.
  rewrite (format_check_never_fails b H).
  now destruct (calc_crc b =? at_ b 7).
Qed.

Lemma locate_window_is_window bitbuffer b :
  locate_window bitbuffer = inr b -> is_window b = true.
Proof.
  unfold locate_window, search_window.
  repeat match goal with
         | |- context [if ?c then _ else _] => destruct c
         end; try discriminate.
  intros [= <-]. apply extract_is_window.
Qed.

End Windows.

(** ** CRC-8 is linear over XOR *)

Section CrcLinear.

Lemma crc8_bit_range p r : is_uint8 (crc8_bit p r) = true.
Proof. unfold crc8_bit. destruct (_ =? _); apply to_uint8_range. Qed.

Lemma shift8_range p x : is_uint8 (shift8 p x) = true.
Proof. unfold shift8. cbn [Nat.iter]. apply crc8_bit_range. Qed.

Lemma crc8_byte_range p r b : is_uint8 (crc8_byte p r b) = true.
Proof. apply (shift8_range p). Qed.

Lemma crc8_byte_shift8 p r b :
  is_uint8 r = true -> is_uint8 b = true ->
  crc8_byte p r b = shift8 p (Z.lxor r b).
Proof.
  intros Hr Hb. unfold crc8_byte, shift8.
  now rewrite (to_uint8_id _ (lxor_uint8 r b Hr Hb)).
Qed.

(** The 8 shifts commute with XOR: checked on all pairs of bytes. *)
Lemma shift8_xor x y :
  is_uint8 x = true -> is_uint8 y = true ->
  shift8 0x07 (Z.lxor x y) = Z.lxor (shift8 0x07 x) (shift8 0x07 y).
Proof.
  intros Hx Hy. apply Z.eqb_eq. revert x y Hx Hy.
  apply (forall_uint8_2
           (fun x y => shift8 0x07 (Z.lxor x y)
                       =? Z.lxor (shift8 0x07 x) (shift8 0x07 y))).
  now vm_compute.
Qed.

Lemma crc8_byte_xor r d b :
  is_uint8 r = true -> is_uint8 d = true -> is_uint8 b = true ->
  crc8_byte 0x07 (Z.lxor r d) b
  = Z.lxor (crc8_byte 0x07 r b) (shift8 0x07 d).
Proof.
  intros Hr Hd Hb.
  rewrite !crc8_byte_shift8 by auto using lxor_uint8.
  rewrite <- shift8_xor by auto using lxor_uint8.
  f_equal. rewrite !Z.lxor_assoc. f_equal. apply Z.lxor_comm.
Qed.

Lemma crc8_byte_zero d :
  is_uint8 d = true -> crc8_byte 0x07 d 0 = shift8 0x07 d.
Proof.
  intros Hd. rewrite crc8_byte_shift8 by auto.
  now rewrite Z.lxor_0_r.
Qed.

Lemma fold_crc8_range p m r :
  is_uint8 r = true -> is_uint8 (fold_left (crc8_byte p) m r) = true.
Proof.
  revert r. induction m as [|b m IH]; intros r Hr; cbn [fold_left].
  - exact Hr.
  - apply IH, crc8_byte_range.
Qed.

(** A change [d] of the register before the bytes [m] changes the CRC by
    the CRC of [d] followed by zero bytes. *)
Lemma fold_crc8_xor m : forall r d,
  is_uint8 r = true -> is_uint8 d = true -> forallb is_uint8 m = true ->
  fold_left (crc8_byte 0x07) m (Z.lxor r d)
  = Z.lxor (fold_left (crc8_byte 0x07) m r)
           (fold_left (crc8_byte 0x07) (repeat 0 (List.length m)) d).
Proof.
  induction m as [|b m IH]; intros r d Hr Hd Hm; cbn [fold_left repeat List.length].
  - reflexivity.
  - cbn [forallb] in Hm. apply andb_true_iff in Hm. destruct Hm as [Hb Hm].
    rewrite crc8_byte_xor, crc8_byte_zero by assumption.
    apply IH; auto using crc8_byte_range, shift8_range.
Qed.

(** A change [e] of one message byte changes the CRC by its syndrome. *)
Lemma fold_crc8_flip m1 x e m2 r :
  is_uint8 r = true -> is_uint8 x = true -> is_uint8 e = true ->
  forallb is_uint8 m2 = true ->
  fold_left (crc8_byte 0x07) (m1 ++ Z.lxor x e :: m2)%list r
  = Z.lxor (fold_left (crc8_byte 0x07) (m1 ++ x :: m2)%list r)
           (syndrome 0x07 e (List.length m2)).
Proof.
  intros Hr Hx He Hm2.
  rewrite !fold_left_app. cbn [fold_left].
  set (c := fold_left (crc8_byte 0x07) m1 r).
  assert (Hc : is_uint8 c = true) by now apply fold_crc8_range.
  replace (crc8_byte 0x07 c (Z.lxor x e))
    with (Z.lxor (crc8_byte 0x07 c x) (shift8 0x07 e)).
  - unfold syndrome.
    apply fold_crc8_xor; auto using crc8_byte_range, shift8_range.
  - rewrite !crc8_byte_shift8 by auto using lxor_uint8.
    rewrite <- shift8_xor by auto using lxor_uint8.
    now rewrite Z.lxor_assoc.
Qed.

(** No single-bit change of one of up to 7 bytes has syndrome zero. *)
Lemma syndrome_single_bit j k :
  0 <= j < 8 -> (k < 7)%nat -> syndrome 0x07 (Z.shiftl 1 j) k <> 0.
Proof.
  intros Hj Hk.
  assert (H : forallb (fun j => forallb (fun k =>
                negb (syndrome 0x07 (Z.shiftl 1 j) k =? 0)) (seq 0 7))
              (zrange 8) = true) by now vm_compute.
  rewrite forallb_forall in H.
  specialize (H j (in_zrange 8 j ltac:(lia))).
  rewrite forallb_forall in H.
  specialize (H k). rewrite in_seq in H.
  specialize (H ltac:(lia)).
  apply negb_true_iff, Z.eqb_neq in H. exact H.
Qed.

Lemma calc_crc_value b :
  calc_crc b = Z.lxor (crc8 b 7 0x07 0x00) 0xdb.
Proof.
  unfold calc_crc. apply to_uint8_id.
  apply lxor_uint8; [|reflexivity].
  unfold crc8. now apply fold_crc8_range.
Qed.

End CrcLinear.

(** ** The integrity validator *)

Section Validator.

Lemma valid_window_emit b :
  valid_window b = true <-> decode_window b = emit b.
Proof.
  unfold valid_window, decode_window.
  destruct (format_check_fails b); cbn [negb andb].
  - split; discriminate.
  - destruct (calc_crc b =? at_ b 7); cbn [negb].
    + tauto.
    + split; discriminate.
Qed.

Lemma valid_window_crc b :
  is_window b = true ->
  valid_window b = true <-> calc_crc b = at_ b 7.
Proof.
  intros H. unfold valid_window.
  rewrite (format_check_never_fails b H). cbn [negb andb].
  apply Z.eqb_eq.
Qed.

(** Two windows that agree on bytes 0 to 7 are decoded alike. *)
Lemma decode_window_byte8 b1 b2 :
  is_window b1 = true -> is_window b2 = true ->
  firstn 8 b1 = firstn 8 b2 ->
  decode_window b1 = decode_window b2.
Proof.
  intros H1 H2 Heq.
  rewrite !decode_window_crc by assumption.
  apply is_window_inv in H1, H2.
  destruct H1 as (x0 & x1 & x2 & x3 & x4 & x5 & x6 & x7 & x8 & -> & _).
  destruct H2 as (y0 & y1 & y2 & y3 & y4 & y5 & y6 & y7 & y8 & -> & _).
  cbn [firstn] in Heq. injection Heq as -> -> -> -> -> -> -> ->.
  unfold emit, ChecksumMismatch, calc_crc, crc8, extract_fields, at_.
  change (Z.to_nat 7) with 7%nat. cbn [nth firstn].
  reflexivity.
Qed.

End Validator.

(** ** Claims on the integrity validator *)

(** C1 (the code departs from it).  The claim: the decoder fails with
    ChecksumFormatInvalid exactly when byte 8 is not the bitwise complement
    of byte 7.  The second example capture of the source's documentation has
    byte 7 = 0x6f and byte 8 = 0x00, which is not the complement 0x90; the
    check of line 81 does not fail on it and the decoder outputs a record
    and returns 1. *)
Theorem format_check_accepts_non_complement :
  is_window example_window_booster = true /\
  is_complement example_window_booster = false /\
  format_check_fails example_window_booster = false /\
  decode_window example_window_booster = emit example_window_booster /\
  ret (decode_window example_window_booster) = RETURN 1 /\
  decode_window example_window_booster
    <> ChecksumFormatInvalid example_window_booster.
Proof.
  repeat split; try (vm_compute; reflexivity).
  vm_compute. discriminate.
Qed.

(** C2.  Two inputs whose extracted windows agree except in byte 8 give the
    same return value, the same log and the same record: the comparison
    [b[7] == ~b[8]] is between a value in 0..255 and a negative [int], so
    the failure branch of line 81 is taken for neither. *)
Theorem byte8_never_matters bitbuffer1 bitbuffer2 b1 b2 :
  locate_window bitbuffer1 = inr b1 ->
  locate_window bitbuffer2 = inr b2 ->
  firstn 8 b1 = firstn 8 b2 ->
  format_check_fails b1 = false /\
  format_check_fails b2 = false /\
  thermopro_tp86xb_decode bitbuffer1 = thermopro_tp86xb_decode bitbuffer2.
Proof.
  intros H1 H2 Heq.
  pose proof (locate_window_is_window _ _ H1) as W1.
  pose proof (locate_window_is_window _ _ H2) as W2.
  split; [now apply format_check_never_fails|].
  split; [now apply format_check_never_fails|].
  unfold thermopro_tp86xb_decode. rewrite H1, H2.
  now apply decode_window_byte8.
Qed.

Lemma byte8_never_matters_witness :
  locate_window example_buffer = inr example_window /\
  locate_window example_buffer_byte8
    = inr [0x9c; 0x9a; 0x2b; 0xc2; 0xc5; 0x0b; 0x1f; 0xa8; 0x00] /\
  thermopro_tp86xb_decode example_buffer
    = thermopro_tp86xb_decode example_buffer_byte8.
Proof.
  split; [vm_compute; reflexivity|]. split; [vm_compute; reflexivity|].
  apply (byte8_never_matters
           example_buffer example_buffer_byte8 example_window
           [0x9c; 0x9a; 0x2b; 0xc2; 0xc5; 0x0b; 0x1f; 0xa8; 0x00]);
    vm_compute; reflexivity.
Defined.

(** C4.  On a window that passes the trailer check of line 81, the decoder
    computes the CRC-8 of bytes 0 to 6 (polynomial 0x07, initial value 0x00),
    XORs it with 0xdb and fails with ChecksumMismatch if and only if the
    value differs from byte 7; when it equals byte 7 the decoder goes on to
    extract the fields and emit the record. *)
Theorem crc_check_decides b :
  format_check_fails b = false ->
  (decode_window b = ChecksumMismatch b
   <-> Z.lxor (crc8 b 7 0x07 0x00) 0xdb <> at_ b 7) /\
  (Z.lxor (crc8 b 7 0x07 0x00) 0xdb = at_ b 7 -> decode_window b = emit b).
Proof.
  intros Hf. rewrite <- calc_crc_value.
  unfold decode_window. rewrite Hf.
  destruct (calc_crc b =? at_ b 7) eqn:E; cbn [negb].
  - apply Z.eqb_eq in E. split; [|reflexivity].
    split; [discriminate|]. intros H. now elim H.
  - apply Z.eqb_neq in E. split; [|intros H; now elim E].
    split; [intros _; exact E|reflexivity].
Qed.

Lemma crc_check_decides_witness :
  format_check_fails example_window = false /\
  Z.lxor (crc8 example_window 7 0x07 0x00) 0xdb = 0xa8 /\
  decode_window example_window = emit example_window.
Proof.
  split; [vm_compute; reflexivity|]. split; [vm_compute; reflexivity|].
  apply (crc_check_decides example_window); vm_compute; reflexivity.
Defined.

(** ** Claims on the frame locator *)

Section Locator.

(** The search returns the row length or a position at which the pattern
    occurs, wholly before the end of the row, with no occurrence between
    [start] and it. *)
Lemma search_from_spec bits len pattern n fuel : forall pos,
  let r := search_from bits len pattern n pos fuel in
  r = len \/
  (pos <= r /\ r + n <= len /\ match_at bits r pattern n = true /\
   forall q, pos <= q < r ->
             (q + n <=? len) && match_at bits q pattern n = false).
Proof.
  induction fuel as [|fuel IH]; intros pos; cbn [search_from].
  - now left.
  - destruct ((pos + n <=? len) && match_at bits pos pattern n) eqn:E.
    + right. apply andb_true_iff in E. destruct E as [E1 E2].
      apply Z.leb_le in E1. repeat split; try lia; try assumption.
    + destruct (IH (pos + 1)) as [H | (H1 & H2 & H3 & H4)]; [now left|].
      right. repeat split; try lia; try assumption.
      intros q Hq. destruct (Z.eq_dec q pos) as [-> | Hne]; [exact E|].
      apply H4. lia.
Qed.

(** After the checks of lines 55-67 the decoder is at the search. *)
Lemma locate_window_in_range bitbuffer :
  num_rows bitbuffer <= 1 ->
  165 <= row_len bitbuffer 0 <= 173 ->
  locate_window bitbuffer = search_window bitbuffer (row_len bitbuffer 0).
Proof.
  intros Hrows Hlen. unfold locate_window.
  destruct (Z.ltb_spec 1 (num_rows bitbuffer)); [lia|].
  destruct (Z.ltb_spec (row_len bitbuffer 0) 165); [lia|].
  destruct (Z.ltb_spec 173 (row_len bitbuffer 0)); [lia|].
  reflexivity.
Qed.

(** What [decode_window] returns is the integrity failure or 1. *)
Lemma decode_window_ret b :
  ret (decode_window b) = DECODE_FAIL_MIC \/ ret (decode_window b) = RETURN 1.
Proof.
  unfold decode_window.
  destruct (format_check_fails b); [now left|].
  destruct (negb _); [now left|now right].
Qed.

End Locator.

(** C6.  For a single-row input the decoder accepts the bit lengths 165 to
    173 only: 164 bits and fewer give the too-short error, 174 bits and more
    give the too-long error, both without a look at the row's bits, and the
    lengths in between (165 and 173 included) go on to the search for the
    sync word. *)
Theorem length_policy bitbuffer :
  num_rows bitbuffer <= 1 ->
  (row_len bitbuffer 0 <= 164 ->
   thermopro_tp86xb_decode bitbuffer = TooShort (row_len bitbuffer 0)) /\
  (174 <= row_len bitbuffer 0 ->
   thermopro_tp86xb_decode bitbuffer = TooLong (row_len bitbuffer 0)) /\
  (165 <= row_len bitbuffer 0 <= 173 ->
   locate_window bitbuffer = search_window bitbuffer (row_len bitbuffer 0)).
Proof.
  intros Hrows.
  unfold thermopro_tp86xb_decode.
  repeat split.
  - intros H. unfold locate_window.
    destruct (Z.ltb_spec 1 (num_rows bitbuffer)); [lia|].
    destruct (Z.ltb_spec (row_len bitbuffer 0) 165); [reflexivity|lia].
  - intros H. unfold locate_window.
    destruct (Z.ltb_spec 1 (num_rows bitbuffer)); [lia|].
    destruct (Z.ltb_spec (row_len bitbuffer 0) 165); [lia|].
    destruct (Z.ltb_spec 173 (row_len bitbuffer 0)); [reflexivity|lia].
  - intros H. now apply locate_window_in_range.
Qed.

Lemma length_policy_witness :
  thermopro_tp86xb_decode (mkBitbuffer 1 [164] [[]]) = TooShort 164 /\
  thermopro_tp86xb_decode (mkBitbuffer 1 [174] [[]]) = TooLong 174 /\
  locate_window (mkBitbuffer 1 [165] [[]])
    = search_window (mkBitbuffer 1 [165] [[]]) 165 /\
  locate_window (mkBitbuffer 1 [173] [[]])
    = search_window (mkBitbuffer 1 [173] [[]]) 173.
Proof.
  split; [|split; [|split]].
  - apply (length_policy (mkBitbuffer 1 [164] [[]])); cbn; lia.
  - apply (length_policy (mkBitbuffer 1 [174] [[]])); cbn; lia.
  - apply (length_policy (mkBitbuffer 1 [165] [[]])); cbn; lia.
  - apply (length_policy (mkBitbuffer 1 [173] [[]])); cbn; lia.
Defined.

(** C3 as stated does not hold.  In [late_sync_buffer], a row of 165 bits, the
    sync word is found at bit 96, so the 72-bit window after it (bits 128 to
    199) extends past the row's 165 bits; the decoder extracts it all the
    same and fails with the CRC mismatch of an all-zero window, not with a
    length error. *)
Lemma late_sync_not_too_short :
  num_rows late_sync_buffer = 1 /\
  row_len late_sync_buffer 0 = 165 /\
  bitbuffer_search late_sync_buffer 0 0 preamble_pattern preamble_bits = 96 /\
  row_len late_sync_buffer 0 < 96 + preamble_bits + 72 /\
  thermopro_tp86xb_decode late_sync_buffer
    = ChecksumMismatch [0; 0; 0; 0; 0; 0; 0; 0; 0] /\
  ret (thermopro_tp86xb_decode late_sync_buffer) <> DECODE_ABORT_LENGTH /\
  thermopro_tp86xb_decode late_sync_buffer <> TooShort 165.
Proof.
  repeat split; try (vm_compute; reflexivity); vm_compute; discriminate.
Qed.

(** C3, amended.  For a single-row input of 165 to 173 bits in which the
    sync word is found, the decoder extracts the 72 bits that follow the sync
    word whether or not they lie within the row's bit length, and goes on to
    the integrity checks; it returns no length error after the search. *)
Theorem window_extracted_unchecked bitbuffer :
  num_rows bitbuffer <= 1 ->
  165 <= row_len bitbuffer 0 <= 173 ->
  bitbuffer_search bitbuffer 0 0 preamble_pattern preamble_bits
    < row_len bitbuffer 0 ->
  let offset :=
    bitbuffer_search bitbuffer 0 0 preamble_pattern preamble_bits in
  let b := bitbuffer_extract_bytes bitbuffer 0 (offset + 32) 72 in
  locate_window bitbuffer = inr b /\
  is_window b = true /\
  thermopro_tp86xb_decode bitbuffer = decode_window b /\
  ret (thermopro_tp86xb_decode bitbuffer) <> DECODE_ABORT_LENGTH.
Proof.
  intros Hrows Hlen Hfound offset b.
  assert (Hloc : locate_window bitbuffer = inr b).
  { rewrite locate_window_in_range by assumption.
    unfold search_window. fold offset.
    destruct (Z.leb_spec (row_len bitbuffer 0) offset); [subst offset; lia|].
    reflexivity. }
  split; [exact Hloc|].
  split; [apply (extract_is_window bitbuffer (offset + 32))|].
  unfold thermopro_tp86xb_decode. rewrite Hloc.
  split; [reflexivity|].
  destruct (decode_window_ret b) as [-> | ->]; discriminate.
Qed.

Lemma window_extracted_unchecked_witness :
  row_len late_sync_buffer 0 < 96 + 32 + 72 /\
  locate_window late_sync_buffer = inr [0; 0; 0; 0; 0; 0; 0; 0; 0] /\
  ret (thermopro_tp86xb_decode late_sync_buffer) <> DECODE_ABORT_LENGTH.
Proof.
  split; [vm_compute; reflexivity|].
  assert (H := window_extracted_unchecked late_sync_buffer).
  cbv zeta in H.
  change (bitbuffer_search late_sync_buffer 0 0 preamble_pattern preamble_bits)
    with 96 in H.
  change (bitbuffer_extract_bytes late_sync_buffer 0 (96 + 32) 72)
    with [0; 0; 0; 0; 0; 0; 0; 0; 0] in H.
  destruct H as (H1 & _ & _ & H4).
  - vm_compute. discriminate.
  - split; vm_compute; discriminate.
  - vm_compute. reflexivity.
  - split; assumption.
Defined.

(** ** The field extractor *)

Section Extractor.

(** The binary32 product [(raw - 500) * 0.1f] lies within 1/10000 of the
    decimal [(raw - 500) / 10] and is shown as that decimal by ["%.1f"],
    for each of the 4096 raw values. *)
Lemma raw_to_celsius_tenths raw :
  0 <= raw < 4096 ->
  F32.tenths (raw_to_celsius raw) = Some (raw - 500) /\
  F32.near_tenth (raw_to_celsius raw) (raw - 500) = true.
Proof.
  intros H.
  assert (Hall : forallb (fun raw =>
                   match F32.tenths (raw_to_celsius raw) with
                   | Some t => (t =? raw - 500)
                               && F32.near_tenth (raw_to_celsius raw) (raw - 500)
                   | None => false
                   end) (zrange 4096) = true) by now vm_compute.
  rewrite forallb_forall in Hall.
  specialize (Hall raw (in_zrange 4096 raw H)).
  destruct (F32.tenths (raw_to_celsius raw)) as [t|]; [|discriminate].
  apply andb_true_iff in Hall. destruct Hall as [Ht Hn].
  apply Z.eqb_eq in Ht. now subst t.
Qed.

(** Byte [x] followed by the top 4 bits of byte [y]. *)
Lemma internal_raw_bytes x y :
  is_uint8 x = true -> is_uint8 y = true ->
  to_uint16 (Z.lor (Z.shiftl x 4) (Z.shiftr y 4)) = x * 16 + y / 16.
Proof.
  intros Hx Hy. apply Z.eqb_eq. revert x y Hx Hy.
  apply (forall_uint8_2
           (fun x y => to_uint16 (Z.lor (Z.shiftl x 4) (Z.shiftr y 4))
                       =? x * 16 + y / 16)).
  now vm_compute.
Qed.

(** The bottom 4 bits of byte [x] followed by byte [y]. *)
Lemma ambient_raw_bytes x y :
  is_uint8 x = true -> is_uint8 y = true ->
  to_uint16 (Z.lor (Z.shiftl (Z.land x 0x0f) 8) y) = (x mod 16) * 256 + y.
Proof.
  intros Hx Hy. apply Z.eqb_eq. revert x y Hx Hy.
  apply (forall_uint8_2
           (fun x y => to_uint16 (Z.lor (Z.shiftl (Z.land x 0x0f) 8) y)
                       =? (x mod 16) * 256 + y)).
  now vm_compute.
Qed.

(** The 12 bits from bit 16 of a window depend on bytes 2 and 3 only, and
    those from bit 28 on bytes 3 and 4. *)
Lemma bit_field_internal x y :
  is_uint8 x = true -> is_uint8 y = true ->
  bit_field [0; 0; x; y] 16 12 = x * 16 + y / 16.
Proof.
  intros Hx Hy. apply Z.eqb_eq. revert x y Hx Hy.
  apply (forall_uint8_2
           (fun x y => bit_field [0; 0; x; y] 16 12 =? x * 16 + y / 16)).
  now vm_compute.
Qed.

Lemma bit_field_ambient x y :
  is_uint8 x = true -> is_uint8 y = true ->
  bit_field [0; 0; 0; x; y] 28 12 = (x mod 16) * 256 + y.
Proof.
  intros Hx Hy. apply Z.eqb_eq. revert x y Hx Hy.
  apply (forall_uint8_2
           (fun x y => bit_field [0; 0; 0; x; y] 28 12
                       =? (x mod 16) * 256 + y)).
  now vm_compute.
Qed.

Lemma bit_field_window_16 b0 b1 b2 b3 b4 b5 b6 b7 b8 :
  bit_field [b0; b1; b2; b3; b4; b5; b6; b7; b8] 16 12
  = bit_field [0; 0; b2; b3] 16 12.
Proof.
  unfold bit_field.
  change (zrange 12) with [0; 1; 2; 3; 4; 5; 6; 7; 8; 9; 10; 11].
  cbn [fold_left]. unfold bit_at.
  repeat match goal with
         | |- context [Z.to_nat (Z.shiftr ?p 3)] =>
             let n := eval vm_compute in (Z.to_nat (Z.shiftr p 3)) in
             change (Z.to_nat (Z.shiftr p 3)) with n
         end.
  cbn [nth]. reflexivity.
Qed.

Lemma bit_field_window_28 b0 b1 b2 b3 b4 b5 b6 b7 b8 :
  bit_field [b0; b1; b2; b3; b4; b5; b6; b7; b8] 28 12
  = bit_field [0; 0; 0; b3; b4] 28 12.
Proof.
  unfold bit_field.
  change (zrange 12) with [0; 1; 2; 3; 4; 5; 6; 7; 8; 9; 10; 11].
  cbn [fold_left]. unfold bit_at.
  repeat match goal with
         | |- context [Z.to_nat (Z.shiftr ?p 3)] =>
             let n := eval vm_compute in (Z.to_nat (Z.shiftr p 3)) in
             change (Z.to_nat (Z.shiftr p 3)) with n
         end.
  cbn [nth]. reflexivity.
Qed.

End Extractor.

(** ** Claims on the field extractor *)

(** C7.  On a window, [internal_raw] is the 12-bit number made of the 8 bits
    of byte 2 followed by the top 4 bits of byte 3, [ambient_raw] the one made
    of the bottom 4 bits of byte 3 followed by the 8 bits of byte 4 (MSB
    first, the bits 16 to 27 and 28 to 39 of the window); both are converted
    to Celsius by the same function, the binary32 product
    [(raw - 500) * 0.1f], whose value is within 1/10000 of [(raw - 500) / 10]
    and is shown with one decimal as exactly that. *)
Theorem temperature_fields b :
  is_window b = true ->
  let f := extract_fields b in
  internal_raw f = at_ b 2 * 16 + at_ b 3 / 16 /\
  internal_raw f = bit_field b 16 12 /\
  ambient_raw f = (at_ b 3 mod 16) * 256 + at_ b 4 /\
  ambient_raw f = bit_field b 28 12 /\
  0 <= internal_raw f < 4096 /\
  0 <= ambient_raw f < 4096 /\
  internal_c f = F32.mul (F32.of_int (internal_raw f - 500)) F32.lit_0_1 /\
  ambient_c f = F32.mul (F32.of_int (ambient_raw f - 500)) F32.lit_0_1 /\
  F32.tenths (internal_c f) = Some (internal_raw f - 500) /\
  F32.tenths (ambient_c f) = Some (ambient_raw f - 500) /\
  F32.near_tenth (internal_c f) (internal_raw f - 500) = true /\
  F32.near_tenth (ambient_c f) (ambient_raw f - 500) = true.
Proof.
  intros H f.
  apply is_window_inv in H.
  destruct H as (b0 & b1 & b2 & b3 & b4 & b5 & b6 & b7 & b8 & -> & H).
  destruct H as (H0 & H1 & H2 & H3 & H4 & H5 & H6 & H7 & H8).
  assert (Ei : internal_raw f = b2 * 16 + b3 / 16)
    by (apply internal_raw_bytes; assumption).
  assert (Ea : ambient_raw f = (b3 mod 16) * 256 + b4)
    by (apply ambient_raw_bytes; assumption).
  apply is_uint8_spec in H2 as R2, H3 as R3, H4 as R4.
  assert (Ri : 0 <= internal_raw f < 4096).
  { rewrite Ei. pose proof (Z.div_pos b3 16).
    assert (b3 / 16 < 16) by (apply Z.div_lt_upper_bound; lia). lia. }
  assert (Ra : 0 <= ambient_raw f < 4096).
  { rewrite Ea. pose proof (Z.mod_pos_bound b3 16). lia. }
  destruct (raw_to_celsius_tenths _ Ri) as [Ti Ni].
  destruct (raw_to_celsius_tenths _ Ra) as [Ta Na].
  change (at_ [b0; b1; b2; b3; b4; b5; b6; b7; b8] 2) with b2.
  change (at_ [b0; b1; b2; b3; b4; b5; b6; b7; b8] 3) with b3.
  change (at_ [b0; b1; b2; b3; b4; b5; b6; b7; b8] 4) with b4.
  rewrite bit_field_window_16, bit_field_window_28.
  rewrite bit_field_internal, bit_field_ambient by assumption.
  repeat split; try assumption; try reflexivity; lia.
Qed.

Lemma temperature_fields_witness :
  is_window example_window = true /\
  internal_raw (extract_fields example_window) = 0x2bc /\
  ambient_raw (extract_fields example_window) = 0x2c5 /\
  F32.tenths (internal_c (extract_fields example_window))
    = Some (internal_raw (extract_fields example_window) - 500).
Proof.
  split; [vm_compute; reflexivity|].
  split; [vm_compute; reflexivity|].
  split; [vm_compute; reflexivity|].
  apply (temperature_fields example_window). vm_compute. reflexivity.
Defined.

(** C5 as stated does not hold.  For the window 9c 9a 2b c2 c5 0b 1f a8 57
    the raw internal value is 0x2bc = 700, and the temperature is not 17.6:
    the value is not shown as 17.6 and is further than 1/10000 from it. *)
Lemma example_temperature_not_17_6 :
  internal_raw (extract_fields example_window) = 0x2bc /\
  F32.tenths (internal_c (extract_fields example_window)) <> Some 176 /\
  F32.near_tenth (internal_c (extract_fields example_window)) 176 = false.
Proof.
  split; [vm_compute; reflexivity|].
  split; [vm_compute; discriminate|vm_compute; reflexivity].
Qed.

(** C5, amended.  For the window 9c 9a 2b c2 c5 0b 1f a8 57 the decoder
    yields id = 0x9c, internal_raw = 0x2bc = 700 and temperature_int_C = 20.0
    (the binary32 value 20 exactly), ambient_raw = 0x2c5 = 709 and
    temperature_amb_C = 20.9; byte 7 (0xa8) is the CRC-8 of bytes 0 to 6
    (polynomial 0x07, initial value 0x00) XOR 0xdb, so that the checksum
    stage accepts the window and the record is emitted. *)
Theorem example_scenario :
  let f := extract_fields example_window in
  id f = 0x9c /\
  internal_raw f = 0x2bc /\
  internal_c f = S754_finite false 10485760 (-19) /\
  10485760 = 20 * 2 ^ 19 /\
  F32.tenths (internal_c f) = Some 200 /\
  ambient_raw f = 0x2c5 /\
  F32.tenths (ambient_c f) = Some 209 /\
  Z.lxor (crc8 example_window 7 0x07 0x00) 0xdb = 0xa8 /\
  at_ example_window 7 = 0xa8 /\
  valid_window example_window = true /\
  decode_window example_window = emit example_window /\
  ret (decode_window example_window) = RETURN 1 /\
  (exists d, output (decode_window example_window) = [d] /\
             lookup "id" d = Some (DATA_INT 0x9c) /\
             lookup "temperature_int_C" d = Some (DATA_DOUBLE (internal_c f)) /\
             lookup "temperature_amb_C" d = Some (DATA_DOUBLE (ambient_c f))).
Proof.
  cbv zeta.
  repeat match goal with |- _ /\ _ => split end;
    try (vm_compute; reflexivity).
  eexists. split; [vm_compute; reflexivity|].
  repeat split; vm_compute; reflexivity.
Qed.

(** ** Single-bit changes *)

Section BitFlips.

Lemma lxor_cancel c s k :
  Z.lxor (Z.lxor (Z.lxor c s) k) (Z.lxor c k) = s.
Proof.
  apply Z.bits_inj'. intros n _. rewrite !Z.lxor_spec.
  now destruct (Z.testbit c n), (Z.testbit s n), (Z.testbit k n).
Qed.

Lemma single_bit_uint8 j : 0 <= j < 8 -> is_uint8 (Z.shiftl 1 j) = true.
Proof.
  intros H.
  assert (E : j = 0 \/ j = 1 \/ j = 2 \/ j = 3 \/ j = 4 \/ j = 5 \/ j = 6 \/ j = 7)
    by lia.
  repeat (destruct E as [-> | E]; [reflexivity|]). now subst.
Qed.

Ltac use_ranges :=
  cbn [forallb];
  repeat match goal with
         | H : is_uint8 ?x = true |- context [is_uint8 ?x] => rewrite H
         end;
  reflexivity.

Lemma flip_bit_is_window b i j :
  is_window b = true -> (i < 7)%nat -> 0 <= j < 8 ->
  is_window (flip_bit b i j) = true.
Proof.
  intros H Hi Hj.
  pose proof (single_bit_uint8 j Hj) as He.
  apply is_window_inv in H.
  destruct H as (b0 & b1 & b2 & b3 & b4 & b5 & b6 & b7 & b8 & -> & H).
  destruct H as (H0 & H1 & H2 & H3 & H4 & H5 & H6 & H7 & H8).
  do 7 (destruct i as [|i];
        [ unfold flip_bit, is_window, at_; cbn [firstn skipn app nth];
          match goal with
          | |- context [Z.lxor ?x ?e] =>
              pose proof (lxor_uint8 x e ltac:(assumption) He)
          end;
          apply andb_true_iff; split; [reflexivity|use_ranges] |]).
  lia.
Qed.

Lemma flip_bit_at_7 b i j :
  is_window b = true -> (i < 7)%nat -> at_ (flip_bit b i j) 7 = at_ b 7.
Proof.
  intros H Hi.
  apply is_window_inv in H.
  destruct H as (b0 & b1 & b2 & b3 & b4 & b5 & b6 & b7 & b8 & -> & _).
  unfold flip_bit, at_.
  destruct i as [|[|[|[|[|[|[|i]]]]]]]; [..|lia]; reflexivity.
Qed.

(** Flipping one bit of one of the bytes 0 to 6 changes the CRC by a
    syndrome. *)
Lemma crc8_flip_bit b i j :
  is_window b = true -> (i < 7)%nat -> 0 <= j < 8 ->
  crc8 (flip_bit b i j) 7 0x07 0x00
  = Z.lxor (crc8 b 7 0x07 0x00) (syndrome 0x07 (Z.shiftl 1 j) (6 - i)).
Proof.
  intros H Hi Hj.
  pose proof (single_bit_uint8 j Hj) as He.
  apply is_window_inv in H.
  destruct H as (b0 & b1 & b2 & b3 & b4 & b5 & b6 & b7 & b8 & -> & H).
  destruct H as (H0 & H1 & H2 & H3 & H4 & H5 & H6 & H7 & H8).
  unfold crc8, flip_bit, at_. change (Z.to_nat 7) with 7%nat.
  destruct i as [|[|[|[|[|[|[|i]]]]]]]; [..|lia];
    cbn [firstn skipn app nth Nat.sub].
  - apply (fold_crc8_flip [] b0 _ [b1; b2; b3; b4; b5; b6] 0);
      try assumption; try reflexivity; use_ranges.
  - apply (fold_crc8_flip [b0] b1 _ [b2; b3; b4; b5; b6] 0);
      try assumption; try reflexivity; use_ranges.
  - apply (fold_crc8_flip [b0; b1] b2 _ [b3; b4; b5; b6] 0);
      try assumption; try reflexivity; use_ranges.
  - apply (fold_crc8_flip [b0; b1; b2] b3 _ [b4; b5; b6] 0);
      try assumption; try reflexivity; use_ranges.
  - apply (fold_crc8_flip [b0; b1; b2; b3] b4 _ [b5; b6] 0);
      try assumption; try reflexivity; use_ranges.
  - apply (fold_crc8_flip [b0; b1; b2; b3; b4] b5 _ [b6] 0);
      try assumption; try reflexivity; use_ranges.
  - apply (fold_crc8_flip [b0; b1; b2; b3; b4; b5] b6 _ [] 0);
      try assumption; try reflexivity; use_ranges.
Qed.

End BitFlips.

(** C8.  In a window that passes validation, flipping any one bit of any of
    the bytes 0 to 6 gives a window that fails with ChecksumMismatch: the
    CRC-8 with polynomial 0x07, XORed with 0xdb, detects every single-bit
    change of the bytes it covers. *)
Theorem single_bit_flip_detected b i j :
  is_window b = true -> valid_window b = true ->
  (i < 7)%nat -> 0 <= j < 8 ->
  valid_window (flip_bit b i j) = false /\
  decode_window (flip_bit b i j) = ChecksumMismatch (flip_bit b i j) /\
  ret (decode_window (flip_bit b i j)) = DECODE_FAIL_MIC.
Proof.
  intros Hw Hv Hi Hj.
  pose proof (flip_bit_is_window b i j Hw Hi Hj) as Hw'.
  apply (valid_window_crc b Hw) in Hv.
  assert (Hne : calc_crc (flip_bit b i j) <> at_ (flip_bit b i j) 7).
  { rewrite flip_bit_at_7 by assumption. rewrite <- Hv.
    rewrite !calc_crc_value, crc8_flip_bit by assumption.
    intros E.
    apply (syndrome_single_bit j (6 - i) Hj ltac:(lia)).
    set (c := crc8 b 7 7 0) in *.
    set (s := syndrome 7 (Z.shiftl 1 j) (6 - i)) in *.
    rewrite <- (lxor_cancel c s 219), E. apply Z.lxor_nilpotent. }
  assert (Hv' : valid_window (flip_bit b i j) = false).
  { destruct (valid_window (flip_bit b i j)) eqn:E; [|reflexivity].
    apply (valid_window_crc _ Hw') in E. contradiction. }
  split; [exact Hv'|].
  rewrite (decode_window_crc _ Hw').
  apply Z.eqb_neq in Hne. rewrite Hne. split; reflexivity.
Qed.

Lemma single_bit_flip_detected_witness :
  valid_window example_window = true /\
  flip_bit example_window 2 0
    = [0x9c; 0x9a; 0x2a; 0xc2; 0xc5; 0x0b; 0x1f; 0xa8; 0x57] /\
  ret (decode_window (flip_bit example_window 2 0)) = DECODE_FAIL_MIC.
Proof.
  split; [vm_compute; reflexivity|]. split; [vm_compute; reflexivity|].
  apply (single_bit_flip_detected example_window 2 0);
    try (vm_compute; reflexivity); lia.
Defined.

(** ** The record builder *)

Section Builder.

(** The keys of the record, in order: the conditional groups appear when
    their condition is non-zero. *)
Lemma record_keys f :
  keys (data_make (data_args f))
  = (["model"; "id"; "color"]
       ++ (if is_docked f =? 0 then [] else ["is_docked"])
       ++ ["temperature_int_C"; "temperature_amb_C"]
       ++ (if is_probe f =? 0 then [] else ["is_probe"])
       ++ (if is_booster f =? 0 then [] else ["is_booster"])
       ++ (if is_probe f =? 0 then [] else ["probe_batery"])
       ++ (if is_booster f =? 0 then [] else ["booster_battery"])
       ++ ["mic"])%list.
Proof.
  unfold keys, data_make, data_args, arg_included.
  cbn [filter arg_cond negb].
  destruct (is_docked f =? 0), (is_probe f =? 0), (is_booster f =? 0);
    reflexivity.
Qed.

Lemma has_probe_batery f :
  has_key "probe_batery" (data_make (data_args f))
  = negb (is_probe f =? 0).
Proof.
  unfold has_key. rewrite record_keys.
  destruct (is_docked f =? 0), (is_probe f =? 0), (is_booster f =? 0);
    reflexivity.
Qed.

Lemma has_booster_battery f :
  has_key "booster_battery" (data_make (data_args f))
  = negb (is_booster f =? 0).
Proof.
  unfold has_key. rewrite record_keys.
  destruct (is_docked f =? 0), (is_probe f =? 0), (is_booster f =? 0);
    reflexivity.
Qed.

Lemma has_is_docked f :
  has_key "is_docked" (data_make (data_args f))
  = negb (is_docked f =? 0).
Proof.
  unfold has_key. rewrite record_keys.
  destruct (is_docked f =? 0), (is_probe f =? 0), (is_booster f =? 0);
    reflexivity.
Qed.

Lemma lookup_probe_batery f :
  lookup "probe_batery" (data_make (data_args f))
  = if is_probe f =? 0 then None else Some (DATA_INT (probe_battery f)).
Proof.
  unfold lookup, data_make, data_args, arg_included.
  cbn [filter arg_cond negb].
  destruct (is_docked f =? 0), (is_probe f =? 0), (is_booster f =? 0);
    reflexivity.
Qed.

Lemma lookup_booster_battery f :
  lookup "booster_battery" (data_make (data_args f))
  = if is_booster f =? 0 then None else Some (DATA_INT (booster_battery f)).
Proof.
  unfold lookup, data_make, data_args, arg_included.
  cbn [filter arg_cond negb].
  destruct (is_docked f =? 0), (is_probe f =? 0), (is_booster f =? 0);
    reflexivity.
Qed.

(** The role flags are 0 or 1, as the comparisons of lines 98 and 99
    give them. *)
Lemma is_probe_value b :
  is_probe (extract_fields b)
  = of_bool (Z.land (at_ b 6) 0x0c =? 0x0c).
Proof. cbn [extract_fields is_probe]. now destruct (_ =? _). Qed.

Lemma is_booster_value b :
  is_booster (extract_fields b)
  = of_bool (Z.land (at_ b 5) 0xc0 =? 0xc0).
Proof. cbn [extract_fields is_booster]. now destruct (_ =? _). Qed.

Lemma is_docked_value b :
  is_window b = true ->
  is_docked (extract_fields b) = of_bool (Z.testbit (at_ b 1) 6).
Proof.
  intros H. pose proof (is_window_at b 1 H) as H1.
  cbn [extract_fields is_docked]. apply Z.eqb_eq.
  revert H1. generalize (at_ b 1).
  apply (forall_uint8
           (fun x => to_uint8 (Z.shiftr (Z.land x 0x40) 6)
                     =? of_bool (Z.testbit x 6))).
  now vm_compute.
Qed.

(** A call that returns 1 has located a window, found it valid and
    emitted its record. *)
Lemma decode_success_inv bitbuffer :
  ret (thermopro_tp86xb_decode bitbuffer) = RETURN 1 ->
  exists b,
    locate_window bitbuffer = inr b /\
    is_window b = true /\ valid_window b = true /\
    thermopro_tp86xb_decode bitbuffer = emit b.
Proof.
  unfold thermopro_tp86xb_decode. intros H.
  destruct (locate_window bitbuffer) as [early | b] eqn:E.
  - exfalso. revert E H. unfold locate_window, search_window.
    repeat match goal with
           | |- context [if ?c then _ else _] => destruct c
           end; intros [= <-]; discriminate.
  - exists b. split; [reflexivity|].
    pose proof (locate_window_is_window _ _ E) as Hw.
    split; [exact Hw|].
    rewrite (decode_window_crc b Hw) in H |- *.
    rewrite (valid_window_crc b Hw).
    destruct (Z.eqb_spec (calc_crc b) (at_ b 7)); [now split|discriminate].
Qed.

End Builder.

(** ** Claims on the record builder *)

(** C9.  For every call that decodes a frame (returns 1), exactly one record
    is emitted; it has the field [probe_batery] if and only if [is_probe] is
    true, the field [booster_battery] if and only if [is_booster] is true,
    and the field [is_docked] only when it is true (and then always).  In
    particular a frame with [is_probe] true and [is_booster] false has
    [probe_batery] and no [booster_battery], and the other way round. *)
Theorem conditional_fields bitbuffer :
  ret (thermopro_tp86xb_decode bitbuffer) = RETURN 1 ->
  exists b d,
    locate_window bitbuffer = inr b /\
    output (thermopro_tp86xb_decode bitbuffer) = [d] /\
    let f := extract_fields b in
    (is_probe f = 0 \/ is_probe f = 1) /\
    (is_booster f = 0 \/ is_booster f = 1) /\
    (has_key "probe_batery" d = true <-> is_probe f = 1) /\
    (has_key "booster_battery" d = true <-> is_booster f = 1) /\
    (has_key "is_docked" d = true <-> is_docked f = 1) /\
    (is_probe f = 1 ->
     lookup "probe_batery" d = Some (DATA_INT (probe_battery f))) /\
    (is_booster f = 1 ->
     lookup "booster_battery" d = Some (DATA_INT (booster_battery f))) /\
    (is_probe f = 1 -> is_booster f = 0 ->
     has_key "probe_batery" d = true /\ has_key "booster_battery" d = false) /\
    (is_probe f = 0 -> is_booster f = 1 ->
     has_key "probe_batery" d = false /\ has_key "booster_battery" d = true).
Proof.
  intros H.
  destruct (decode_success_inv bitbuffer H) as (b & Hloc & Hw & Hv & Hemit).
  exists b, (data_make (data_args (extract_fields b))).
  split; [exact Hloc|].
  split; [now rewrite Hemit|].
  cbv zeta.
  rewrite has_probe_batery, has_booster_battery, has_is_docked.
  rewrite lookup_probe_batery, lookup_booster_battery.
  rewrite (is_docked_value b Hw), is_probe_value, is_booster_value.
  destruct (Z.land (at_ b 6) 12 =? 12), (Z.land (at_ b 5) 192 =? 192),
    (Z.testbit (at_ b 1) 6); cbn;
    repeat split; intros; try reflexivity; try discriminate; auto.
Qed.

Lemma conditional_fields_witness :
  ret (thermopro_tp86xb_decode example_buffer) = RETURN 1 /\
  exists b d,
    locate_window example_buffer = inr b /\
    output (thermopro_tp86xb_decode example_buffer) = [d] /\
    (has_key "probe_batery" d = true <-> is_probe (extract_fields b) = 1).
Proof.
  split; [vm_compute; reflexivity|].
  destruct (conditional_fields example_buffer) as (b & d & H1 & H2 & H3).
  - vm_compute. reflexivity.
  - exists b, d. split; [exact H1|]. split; [exact H2|].
    apply H3.
Defined.

(** C10.  There is a window that passes both integrity checks and has the
    top 2 bits of byte 5 equal to 0b11 together with the bits 0x0c of byte 6
    equal to 0x0c; for every such window the decoder reports [is_probe] and
    [is_booster] both true and puts [probe_batery] and [booster_battery] in
    the same record: the two roles are decoded independently. *)
Theorem both_roles_reported :
  (exists b,
     is_window b = true /\ valid_window b = true /\ is_complement b = true /\
     Z.land (at_ b 5) 0xc0 = 0xc0 /\ Z.land (at_ b 6) 0x0c = 0x0c) /\
  (forall b,
     valid_window b = true ->
     Z.land (at_ b 5) 0xc0 = 0xc0 -> Z.land (at_ b 6) 0x0c = 0x0c ->
     let f := extract_fields b in
     is_probe f = 1 /\ is_booster f = 1 /\
     exists d,
       decode_window b = Result (RETURN 1) [] [d] /\
       has_key "probe_batery" d = true /\
       has_key "booster_battery" d = true /\
       lookup "probe_batery" d = Some (DATA_INT (probe_battery f)) /\
       lookup "booster_battery" d = Some (DATA_INT (booster_battery f))).
Proof.
  split.
  - exists both_roles_window. repeat split; vm_compute; reflexivity.
  - intros b Hv H5 H6 f.
    assert (Hp : is_probe f = 1)
      by (subst f; rewrite is_probe_value, H6; reflexivity).
    assert (Hb : is_booster f = 1)
      by (subst f; rewrite is_booster_value, H5; reflexivity).
    split; [exact Hp|]. split; [exact Hb|].
    exists (data_make (data_args f)).
    split; [apply valid_window_emit; exact Hv|].
    rewrite has_probe_batery, has_booster_battery.
    rewrite lookup_probe_batery, lookup_booster_battery.
    rewrite Hp, Hb. repeat split; reflexivity.
Qed.

Lemma both_roles_reported_witness :
  valid_window both_roles_window = true /\
  is_probe (extract_fields both_roles_window) = 1 /\
  is_booster (extract_fields both_roles_window) = 1.
Proof.
  split; [vm_compute; reflexivity|].
  destruct (proj2 both_roles_reported both_roles_window) as (Hp & Hb & _).
  - vm_compute. reflexivity.
  - vm_compute. reflexivity.
  - vm_compute. reflexivity.
  - split; assumption.
Defined.

(** ** Further properties: the outcomes of a call *)

Section Outcomes.

(** The early returns of lines 55-75 write one log line and no record. *)
Lemma locate_window_early bitbuffer early :
  locate_window bitbuffer = inl early ->
  (early = TooManyRows (num_rows bitbuffer) /\ 1 < num_rows bitbuffer) \/
  (early = TooShort (row_len bitbuffer 0) /\ row_len bitbuffer 0 < 165) \/
  (early = TooLong (row_len bitbuffer 0) /\ 173 < row_len bitbuffer 0) \/
  (early = SyncNotFound /\
   row_len bitbuffer 0
     <= bitbuffer_search bitbuffer 0 0 preamble_pattern preamble_bits).
Proof.
  unfold locate_window, search_window.
  destruct (Z.ltb_spec 1 (num_rows bitbuffer)).
  { intros [= <-]. left. now split. }
  destruct (Z.ltb_spec (row_len bitbuffer 0) 165).
  { intros [= <-]. right. left. now split. }
  destruct (Z.ltb_spec 173 (row_len bitbuffer 0)).
  { intros [= <-]. right. right. left. now split. }
  destruct (Z.leb_spec (row_len bitbuffer 0)
              (bitbuffer_search bitbuffer 0 0 preamble_pattern preamble_bits)).
  { intros [= <-]. right. right. right. now split. }
  discriminate.
Qed.

(** The window that the decoder extracts is the one after the sync word. *)
Lemma locate_window_found bitbuffer b :
  locate_window bitbuffer = inr b ->
  num_rows bitbuffer <= 1 /\
  165 <= row_len bitbuffer 0 <= 173 /\
  bitbuffer_search bitbuffer 0 0 preamble_pattern preamble_bits
    < row_len bitbuffer 0 /\
  b = bitbuffer_extract_bytes bitbuffer 0
        (bitbuffer_search bitbuffer 0 0 preamble_pattern preamble_bits + 32)
        72.
Proof.
  unfold locate_window, search_window.
  destruct (Z.ltb_spec 1 (num_rows bitbuffer)); [discriminate|].
  destruct (Z.ltb_spec (row_len bitbuffer 0) 165); [discriminate|].
  destruct (Z.ltb_spec 173 (row_len bitbuffer 0)); [discriminate|].
  destruct (Z.leb_spec (row_len bitbuffer 0)
              (bitbuffer_search bitbuffer 0 0 preamble_pattern preamble_bits));
    [discriminate|].
  intros [= <-]. repeat split; try lia.
Qed.

(** In a single row of 165 to 173 bits with the sync word found, the
    decoder is at line 78 with the 9 bytes after the sync word. *)
Lemma window_extracted_bytes bitbuffer :
  num_rows bitbuffer <= 1 ->
  165 <= row_len bitbuffer 0 <= 173 ->
  bitbuffer_search bitbuffer 0 0 preamble_pattern preamble_bits
    < row_len bitbuffer 0 ->
  locate_window bitbuffer
  = inr (bitbuffer_extract_bytes bitbuffer 0
           (bitbuffer_search bitbuffer 0 0 preamble_pattern preamble_bits + 32)
           72) /\
  is_window (bitbuffer_extract_bytes bitbuffer 0
               (bitbuffer_search bitbuffer 0 0 preamble_pattern preamble_bits
                + 32) 72) = true.
Proof.
  intros Hrows Hlen Hfound.
  split; [|apply (extract_is_window bitbuffer)].
  rewrite locate_window_in_range by assumption.
  unfold search_window.
  destruct (Z.leb_spec (row_len bitbuffer 0)
              (bitbuffer_search bitbuffer 0 0 preamble_pattern preamble_bits));
    [lia|reflexivity].
Qed.

End Outcomes.

(** X1.  A buffer with more than one row is rejected with the sanity failure
    and the log line "Too many rows", before the length of row 0 is looked
    at: whatever the rows hold and however long they are, nothing is
    decoded. *)
Theorem too_many_rows_rejected bitbuffer :
  1 < num_rows bitbuffer ->
  thermopro_tp86xb_decode bitbuffer = TooManyRows (num_rows bitbuffer) /\
  ret (thermopro_tp86xb_decode bitbuffer) = DECODE_FAIL_SANITY /\
  output (thermopro_tp86xb_decode bitbuffer) = [].
Proof.
  intros H. unfold thermopro_tp86xb_decode, locate_window.
  destruct (Z.ltb_spec 1 (num_rows bitbuffer)); [|lia].
  repeat split.
Qed.

Lemma too_many_rows_rejected_witness :
  locate_window example_buffer = inr example_window /\
  row_bits two_row_buffer 0 = row_bits example_buffer 0 /\
  thermopro_tp86xb_decode two_row_buffer = TooManyRows 2.
Proof.
  split; [vm_compute; reflexivity|]. split; [reflexivity|].
  apply (too_many_rows_rejected two_row_buffer). vm_compute. reflexivity.
Defined.

(** X2.  For a single row of 165 to 173 bits in which the search does not
    find the sync word (it returns an offset that is not below the row
    length), the decoder aborts early with the log line "Sync word not
    found"; no window is extracted and no record is emitted. *)
Theorem sync_not_found_aborts bitbuffer :
  num_rows bitbuffer <= 1 ->
  165 <= row_len bitbuffer 0 <= 173 ->
  row_len bitbuffer 0
    <= bitbuffer_search bitbuffer 0 0 preamble_pattern preamble_bits ->
  locate_window bitbuffer = inl SyncNotFound /\
  thermopro_tp86xb_decode bitbuffer = SyncNotFound /\
  ret (thermopro_tp86xb_decode bitbuffer) = DECODE_ABORT_EARLY /\
  output (thermopro_tp86xb_decode bitbuffer) = [].
Proof.
  intros Hrows Hlen Hnot.
  assert (E : locate_window bitbuffer = inl SyncNotFound).
  { rewrite locate_window_in_range by assumption.
    unfold search_window.
    destruct (Z.leb_spec (row_len bitbuffer 0)
                (bitbuffer_search bitbuffer 0 0 preamble_pattern preamble_bits));
      [reflexivity|lia]. }
  unfold thermopro_tp86xb_decode. rewrite E. repeat split.
Qed.

Lemma sync_not_found_aborts_witness :
  bitbuffer_search zero_buffer 0 0 preamble_pattern preamble_bits = 165 /\
  thermopro_tp86xb_decode zero_buffer = SyncNotFound.
Proof.
  split; [vm_compute; reflexivity|].
  apply (sync_not_found_aborts zero_buffer).
  - vm_compute. discriminate.
  - split; vm_compute; discriminate.
  - vm_compute. discriminate.
Defined.

(** X3.  Every call ends in one of two ways: it returns 1, has written no
    log line and has emitted exactly one record; or it returns one of the
    four failure codes, has written exactly one log line and has emitted no
    record.  In particular a record is emitted if and only if the return
    value is 1, and the log line of the trailer check of line 82 is never
    written. *)
Theorem outcome_invariant bitbuffer :
  let r := thermopro_tp86xb_decode bitbuffer in
  (ret r = RETURN 1 /\ logged r = [] /\ List.length (output r) = 1%nat) \/
  ((ret r = DECODE_FAIL_SANITY \/ ret r = DECODE_ABORT_LENGTH \/
    ret r = DECODE_ABORT_EARLY \/ ret r = DECODE_FAIL_MIC) /\
   List.length (logged r) = 1%nat /\ output r = [] /\
   forall l, In l (logged r) ->
     log_msg l <> "Checksum byte 7 is supposed to be equal to byte 8 inverted. Actual: %02x vs %02x (inverted %02x)").
Proof.
  cbv zeta. unfold thermopro_tp86xb_decode.
  destruct (locate_window bitbuffer) as [early | b] eqn:E.
  - right.
    destruct (locate_window_early _ _ E)
      as [[-> _] | [[-> _] | [[-> _] | [-> _]]]];
      (split; [cbn; tauto|]); (split; [reflexivity|]);
      (split; [reflexivity|]);
      intros l [<- | []]; cbn; discriminate.
  - pose proof (locate_window_is_window _ _ E) as Hw.
    rewrite (decode_window_crc b Hw).
    destruct (calc_crc b =? at_ b 7).
    + left. repeat split.
    + right. split; [cbn; tauto|]. split; [reflexivity|].
      split; [reflexivity|].
      intros l [<- | []]; cbn; discriminate.
Qed.

(** X4.  The decoder returns 1 exactly when the buffer has at most one row,
    row 0 has 165 to 173 bits, the sync word is found in it, and in the 9
    bytes after the sync word byte 7 equals the CRC-8 of bytes 0 to 6 XOR
    0xdb; byte 8 has no part in it. *)
Theorem success_iff bitbuffer :
  let offset :=
    bitbuffer_search bitbuffer 0 0 preamble_pattern preamble_bits in
  let b := bitbuffer_extract_bytes bitbuffer 0 (offset + 32) 72 in
  ret (thermopro_tp86xb_decode bitbuffer) = RETURN 1 <->
  num_rows bitbuffer <= 1 /\
  165 <= row_len bitbuffer 0 <= 173 /\
  offset < row_len bitbuffer 0 /\
  Z.lxor (crc8 b 7 0x07 0x00) 0xdb = at_ b 7.
Proof.
  intros offset b. rewrite <- calc_crc_value. split.
  - intros H.
    destruct (decode_success_inv bitbuffer H) as (w & Hloc & Hw & Hv & _).
    destruct (locate_window_found _ _ Hloc) as (H1 & H2 & H3 & H4).
    fold offset in H3, H4. fold b in H4. subst w.
    repeat split; try lia.
    now apply (valid_window_crc b Hw).
  - intros (H1 & H2 & H3 & H4).
    destruct (window_extracted_bytes bitbuffer H1 H2 H3) as (Hloc & Hw).
    fold offset in Hloc. fold b in Hloc, Hw.
    unfold thermopro_tp86xb_decode. rewrite Hloc.
    rewrite (decode_window_crc b Hw).
    apply Z.eqb_eq in H4. now rewrite H4.
Qed.

Lemma success_iff_witness :
  ret (thermopro_tp86xb_decode example_buffer) = RETURN 1.
Proof.
  apply (success_iff example_buffer).
  repeat split; vm_compute; try reflexivity; discriminate.
Defined.

Lemma outcome_invariant_witness :
  ret (thermopro_tp86xb_decode zero_buffer) = DECODE_ABORT_EARLY /\
  List.length (logged (thermopro_tp86xb_decode zero_buffer)) = 1%nat.
Proof.
  destruct (outcome_invariant zero_buffer) as [[H _] | (_ & H & _)].
  - vm_compute in H. discriminate H.
  - split; [vm_compute; reflexivity|exact H].
Defined.

(** ** Further properties: the field extractor *)

Section Layout.

(** A bit field of a list of bytes reads the bytes it covers only: the
    byte indices are computed, the bytes looked up. *)
Ltac bit_field_bytes :=
  unfold bit_field;
  repeat match goal with
         | |- context [zrange ?w] =>
             let l := eval vm_compute in (zrange w) in
             change (zrange w) with l
         end;
  cbn [fold_left]; unfold bit_at;
  repeat match goal with
         | |- context [Z.to_nat (Z.shiftr ?p 3)] =>
             let n := eval vm_compute in (Z.to_nat (Z.shiftr p 3)) in
             change (Z.to_nat (Z.shiftr p 3)) with n
         end;
  cbn [nth]; reflexivity.

Lemma bit_field_byte0 b0 b1 b2 b3 b4 b5 b6 b7 b8 :
  bit_field [b0; b1; b2; b3; b4; b5; b6; b7; b8] 0 8 = bit_field [b0] 0 8.
Proof. bit_field_bytes. Qed.

Lemma bit_field_byte1 b0 b1 b2 b3 b4 b5 b6 b7 b8 :
  bit_field [b0; b1; b2; b3; b4; b5; b6; b7; b8] 9 1
  = bit_field [0; b1] 9 1 /\
  bit_field [b0; b1; b2; b3; b4; b5; b6; b7; b8] 11 1
  = bit_field [0; b1] 11 1.
Proof. split; bit_field_bytes. Qed.

Lemma bit_field_byte5 b0 b1 b2 b3 b4 b5 b6 b7 b8 :
  bit_field [b0; b1; b2; b3; b4; b5; b6; b7; b8] 40 2
  = bit_field [0; 0; 0; 0; 0; b5] 40 2.
Proof. bit_field_bytes. Qed.

Lemma bit_field_byte6 b0 b1 b2 b3 b4 b5 b6 b7 b8 :
  bit_field [b0; b1; b2; b3; b4; b5; b6; b7; b8] 50 2
  = bit_field [0; 0; 0; 0; 0; 0; b6] 50 2 /\
  bit_field [b0; b1; b2; b3; b4; b5; b6; b7; b8] 52 2
  = bit_field [0; 0; 0; 0; 0; 0; b6] 52 2 /\
  bit_field [b0; b1; b2; b3; b4; b5; b6; b7; b8] 54 2
  = bit_field [0; 0; 0; 0; 0; 0; b6] 54 2.
Proof. repeat split; bit_field_bytes. Qed.

(** The shifts and masks of lines 93-101 on one byte, against the bit
    fields of that byte: checked on the 256 byte values. *)
Lemma byte_fields_checked x :
  is_uint8 x = true ->
  to_uint8 x = bit_field [x] 0 8 /\
  to_uint8 (Z.shiftr (Z.land x 0x40) 6) = bit_field [0; x] 9 1 /\
  to_int8 (Z.shiftr (Z.land x 0x10) 4) = bit_field [0; x] 11 1 /\
  to_uint8 (of_bool (Z.land x 0xc0 =? 0xc0))
  = of_bool (bit_field [0; 0; 0; 0; 0; x] 40 2 =? 3) /\
  to_uint8 (Z.shiftr (Z.land x 0x30) 4)
  = bit_field [0; 0; 0; 0; 0; 0; x] 50 2 /\
  to_uint8 (of_bool (Z.land x 0x0c =? 0x0c))
  = of_bool (bit_field [0; 0; 0; 0; 0; 0; x] 52 2 =? 3) /\
  to_uint8 (Z.land x 0x03) = bit_field [0; 0; 0; 0; 0; 0; x] 54 2.
Proof.
  intros H.
  assert (E := forall_uint8
    (fun x =>
       (to_uint8 x =? bit_field [x] 0 8)
       && (to_uint8 (Z.shiftr (Z.land x 0x40) 6) =? bit_field [0; x] 9 1)
       && (to_int8 (Z.shiftr (Z.land x 0x10) 4) =? bit_field [0; x] 11 1)
       && (to_uint8 (of_bool (Z.land x 0xc0 =? 0xc0))
           =? of_bool (bit_field [0; 0; 0; 0; 0; x] 40 2 =? 3))
       && (to_uint8 (Z.shiftr (Z.land x 0x30) 4)
           =? bit_field [0; 0; 0; 0; 0; 0; x] 50 2)
       && (to_uint8 (of_bool (Z.land x 0x0c =? 0x0c))
           =? of_bool (bit_field [0; 0; 0; 0; 0; 0; x] 52 2 =? 3))
       && (to_uint8 (Z.land x 0x03) =? bit_field [0; 0; 0; 0; 0; 0; x] 54 2))
    ltac:(now vm_compute) x H).
  cbv beta in E. rewrite !andb_true_iff, !Z.eqb_eq in E. tauto.
Qed.

End Layout.

(** X5.  The fields that lines 93-101 extract with shifts and masks are the
    bit fields of the data layout documented at lines 27-29 (bit 0 is the
    MSB of byte 0): ID is the 8 bits from bit 0, IS_DOCKED bit 9, COLOR bit
    11, IS_BOOSTER the 2 bits from bit 40 (set when both are 1), PROBE_BAT
    the 2 bits from bit 50, IS_PROBE the 2 bits from bit 52 (set when both
    are 1), BOOSTER_BAT the 2 bits from bit 54; the battery levels and flags
    are thereby in 0..3 and 0..1. *)
Theorem fields_match_layout b :
  is_window b = true ->
  let f := extract_fields b in
  id f = bit_field b 0 8 /\
  is_docked f = bit_field b 9 1 /\
  is_white f = bit_field b 11 1 /\
  is_booster f = of_bool (bit_field b 40 2 =? 3) /\
  probe_battery f = bit_field b 50 2 /\
  is_probe f = of_bool (bit_field b 52 2 =? 3) /\
  booster_battery f = bit_field b 54 2 /\
  0 <= probe_battery f <= 3 /\ 0 <= booster_battery f <= 3 /\
  0 <= is_docked f <= 1 /\ 0 <= is_white f <= 1.
Proof.
  intros H f.
  apply is_window_inv in H.
  destruct H as (b0 & b1 & b2 & b3 & b4 & b5 & b6 & b7 & b8 & -> & H).
  destruct H as (H0 & H1 & H2 & H3 & H4 & H5 & H6 & H7 & H8).
  rewrite bit_field_byte0, bit_field_byte5.
  destruct (bit_field_byte1 b0 b1 b2 b3 b4 b5 b6 b7 b8) as [-> ->].
  destruct (bit_field_byte6 b0 b1 b2 b3 b4 b5 b6 b7 b8) as (-> & -> & ->).
  destruct (byte_fields_checked b0 H0) as (E0 & _).
  destruct (byte_fields_checked b1 H1) as (_ & E1 & E2 & _).
  destruct (byte_fields_checked b5 H5) as (_ & _ & _ & E5 & _).
  destruct (byte_fields_checked b6 H6) as (_ & _ & _ & _ & E6 & E7 & E8).
  subst f. cbn [extract_fields id is_docked is_white is_booster
                 probe_battery is_probe booster_battery].
  change (at_ [b0; b1; b2; b3; b4; b5; b6; b7; b8] 0) with b0.
  change (at_ [b0; b1; b2; b3; b4; b5; b6; b7; b8] 1) with b1.
  change (at_ [b0; b1; b2; b3; b4; b5; b6; b7; b8] 5) with b5.
  change (at_ [b0; b1; b2; b3; b4; b5; b6; b7; b8] 6) with b6.
  rewrite E0, E1, E2, E5, E6, E7, E8.
  assert (R : forall x p, 0 <= bit_field x p 2 <= 3).
  { intros x p. unfold bit_field. change (zrange 2) with [0; 1].
    cbn [fold_left].
    destruct (bit_at_01 x (p + 0)) as [-> | ->],
             (bit_at_01 x (p + 1)) as [-> | ->]; lia. }
  assert (R1 : forall x p, 0 <= bit_field x p 1 <= 1).
  { intros x p. unfold bit_field. change (zrange 1) with [0].
    cbn [fold_left].
    destruct (bit_at_01 x (p + 0)) as [-> | ->]; lia. }
  repeat split; try reflexivity; try apply R; apply R1.
Qed.

Lemma fields_match_layout_witness :
  is_window example_window = true /\
  probe_battery (extract_fields example_window)
  = bit_field example_window 50 2.
Proof.
  split; [vm_compute; reflexivity|].
  apply (fields_match_layout example_window). vm_compute. reflexivity.
Defined.

(** The temperature of each of the 4096 raw values is a finite binary32
    number, and is the positive zero only for the raw value 500. *)
Lemma raw_to_celsius_finite raw :
  0 <= raw < 4096 ->
  is_finite_f32 (raw_to_celsius raw) = true /\
  (raw_to_celsius raw = S754_zero false <-> raw = 500) /\
  raw_to_celsius raw <> S754_zero true.
Proof.
  intros H.
  assert (Hall : forallb (fun raw =>
                   is_finite_f32 (raw_to_celsius raw)
                   && match raw_to_celsius raw with
                      | S754_zero s => negb s && (raw =? 500)
                      | _ => negb (raw =? 500)
                      end) (zrange 4096) = true) by now vm_compute.
  rewrite forallb_forall in Hall.
  specialize (Hall raw (in_zrange 4096 raw H)).
  apply andb_true_iff in Hall. destruct Hall as [Hf Hz].
  split; [exact Hf|].
  destruct (raw_to_celsius raw) as [[|]| | |]; cbn [negb andb] in Hz;
    try discriminate Hz;
    try (apply negb_true_iff, Z.eqb_neq in Hz);
    try (apply Z.eqb_eq in Hz);
    (split; [split; [intros E; try discriminate E; try assumption
                    | intros E; try reflexivity; try contradiction]
            | try discriminate]).
Qed.

(** The raw values of a window are 12-bit numbers. *)
Lemma raw_ranges b :
  is_window b = true ->
  0 <= internal_raw (extract_fields b) < 4096 /\
  0 <= ambient_raw (extract_fields b) < 4096.
Proof.
  intros H. apply is_window_inv in H.
  destruct H as (b0 & b1 & b2 & b3 & b4 & b5 & b6 & b7 & b8 & -> & H).
  destruct H as (H0 & H1 & H2 & H3 & H4 & H5 & H6 & H7 & H8).
  cbn [extract_fields internal_raw ambient_raw].
  change (at_ [b0; b1; b2; b3; b4; b5; b6; b7; b8] 2) with b2.
  change (at_ [b0; b1; b2; b3; b4; b5; b6; b7; b8] 3) with b3.
  change (at_ [b0; b1; b2; b3; b4; b5; b6; b7; b8] 4) with b4.
  rewrite internal_raw_bytes, ambient_raw_bytes by assumption.
  apply is_uint8_spec in H2, H3, H4.
  pose proof (Z.div_pos b3 16).
  assert (b3 / 16 < 16) by (apply Z.div_lt_upper_bound; lia).
  pose proof (Z.mod_pos_bound b3 16). lia.
Qed.

(** X6.  For every window both temperatures are finite binary32 numbers
    (never a NaN, an infinity or a negative zero), are shown between -50.0
    and 359.5 degrees, and differ whenever the two raw values differ. *)
Theorem temperature_range b :
  is_window b = true ->
  let f := extract_fields b in
  is_finite_f32 (internal_c f) = true /\
  is_finite_f32 (ambient_c f) = true /\
  internal_c f <> S754_zero true /\ ambient_c f <> S754_zero true /\
  (exists ti ta,
     F32.tenths (internal_c f) = Some ti /\ -500 <= ti <= 3595 /\
     F32.tenths (ambient_c f) = Some ta /\ -500 <= ta <= 3595) /\
  (internal_c f = ambient_c f <-> internal_raw f = ambient_raw f).
Proof.
  intros H f.
  destruct (raw_ranges b H) as [Ri Ra]. fold f in Ri, Ra.
  destruct (raw_to_celsius_tenths _ Ri) as [Ti _].
  destruct (raw_to_celsius_tenths _ Ra) as [Ta _].
  destruct (raw_to_celsius_finite _ Ri) as (Fi & _ & Ni).
  destruct (raw_to_celsius_finite _ Ra) as (Fa & _ & Na).
  change (internal_c f) with (raw_to_celsius (internal_raw f)).
  change (ambient_c f) with (raw_to_celsius (ambient_raw f)).
  repeat split; try assumption.
  - exists (internal_raw f - 500), (ambient_raw f - 500).
    repeat split; try assumption; lia.
  - intros E. rewrite E in Ti. rewrite Ti in Ta.
    apply (f_equal (fun o => match o with Some z => z | None => 0 end)) in Ta.
    cbv beta iota in Ta. lia.
  - intros E. now rewrite E.
Qed.

Lemma temperature_range_witness :
  is_window example_window = true /\
  is_finite_f32 (internal_c (extract_fields example_window)) = true.
Proof.
  split; [vm_compute; reflexivity|].
  apply (temperature_range example_window). vm_compute. reflexivity.
Defined.

Section Reserved.

Lemma land_submask x m k : Z.land m k = k -> Z.land x k = Z.land (Z.land x m) k.
Proof. intros H. now rewrite <- Z.land_assoc, H. Qed.

End Reserved.

(** X7.  The record depends on the window only through byte 0, the bits
    0x50 of byte 1, bytes 2 to 4, the bits 0xc0 of byte 5 and the bits 0x3f
    of byte 6: the bits that the layout marks as unknown, and bytes 7 and 8,
    never show in the extracted fields or in the emitted record. *)
Theorem reserved_bits_ignored b b' :
  at_ b 0 = at_ b' 0 ->
  Z.land (at_ b 1) 0x50 = Z.land (at_ b' 1) 0x50 ->
  at_ b 2 = at_ b' 2 -> at_ b 3 = at_ b' 3 -> at_ b 4 = at_ b' 4 ->
  Z.land (at_ b 5) 0xc0 = Z.land (at_ b' 5) 0xc0 ->
  Z.land (at_ b 6) 0x3f = Z.land (at_ b' 6) 0x3f ->
  extract_fields b = extract_fields b' /\ emit b = emit b'.
Proof.
  intros H0 H1 H2 H3 H4 H5 H6.
  assert (E : extract_fields b = extract_fields b').
  { unfold extract_fields.
    rewrite H0, H2, H3, H4.
    rewrite (land_submask (at_ b 1) 0x50 0x10) by reflexivity.
    rewrite (land_submask (at_ b 1) 0x50 0x40) by reflexivity.
    rewrite (land_submask (at_ b 6) 0x3f 0x0c) by reflexivity.
    rewrite (land_submask (at_ b 6) 0x3f 0x30) by reflexivity.
    rewrite (land_submask (at_ b 6) 0x3f 0x03) by reflexivity.
    rewrite H1, H5, H6.
    rewrite <- (land_submask (at_ b' 1) 0x50 0x10) by reflexivity.
    rewrite <- (land_submask (at_ b' 1) 0x50 0x40) by reflexivity.
    rewrite <- (land_submask (at_ b' 6) 0x3f 0x0c) by reflexivity.
    rewrite <- (land_submask (at_ b' 6) 0x3f 0x30) by reflexivity.
    rewrite <- (land_submask (at_ b' 6) 0x3f 0x03) by reflexivity.
    reflexivity. }
  split; [exact E|]. unfold emit. now rewrite E.
Qed.

Lemma reserved_bits_ignored_witness :
  emit example_window
  = emit [0x9c; 0x35; 0x2b; 0xc2; 0xc5; 0x3f; 0xdf; 0x00; 0xff].
Proof.
  apply (reserved_bits_ignored
           example_window
           [0x9c; 0x35; 0x2b; 0xc2; 0xc5; 0x3f; 0xdf; 0x00; 0xff]);
    vm_compute; reflexivity.
Defined.

(** ** Further properties: the record *)

Section Record.

(** A record that is emitted is the record of the located window. *)
Lemma output_inv bitbuffer d :
  In d (output (thermopro_tp86xb_decode bitbuffer)) ->
  exists b,
    locate_window bitbuffer = inr b /\ is_window b = true /\
    valid_window b = true /\
    d = data_make (data_args (extract_fields b)).
Proof.
  unfold thermopro_tp86xb_decode.
  destruct (locate_window bitbuffer) as [early | b] eqn:E.
  - destruct (locate_window_early _ _ E)
      as [[-> _] | [[-> _] | [[-> _] | [-> _]]]]; intros [].
  - pose proof (locate_window_is_window _ _ E) as Hw.
    rewrite (decode_window_crc b Hw).
    destruct (Z.eqb_spec (calc_crc b) (at_ b 7)) as [Hc | Hc].
    + intros [<- | []]. exists b. repeat split; try assumption.
      now apply (valid_window_crc b Hw).
    + intros [].
Qed.

Lemma record_keys_declared f :
  is_subseq (keys (data_make (data_args f))) Device.output_fields = true /\
  NoDup (keys (data_make (data_args f))).
Proof.
  rewrite record_keys.
  destruct (is_docked f =? 0), (is_probe f =? 0), (is_booster f =? 0);
    (split; [reflexivity|]);
    cbn [app];
    repeat (constructor; [cbn [In]; intuition discriminate|]);
    constructor.
Qed.

Lemma record_fixed_keys f k :
  In k ["model"; "id"; "color"; "temperature_int_C"; "temperature_amb_C";
        "mic"] ->
  has_key k (data_make (data_args f)) = true.
Proof.
  unfold has_key. rewrite record_keys. cbn [In].
  intros [<- | [<- | [<- | [<- | [<- | [<- | []]]]]]];
    destruct (is_docked f =? 0), (is_probe f =? 0), (is_booster f =? 0);
    reflexivity.
Qed.

(** The values of the fields that are always there. *)
Lemma record_fixed_values f :
  let d := data_make (data_args f) in
  lookup "model" d = Some (DATA_STRING "ThermoPro-TempSpikeXR") /\
  lookup "id" d = Some (DATA_INT (id f)) /\
  lookup "color" d
  = Some (DATA_STRING (if negb (is_white f =? 0) then "white" else "black")) /\
  lookup "temperature_int_C" d = Some (DATA_DOUBLE (internal_c f)) /\
  lookup "temperature_amb_C" d = Some (DATA_DOUBLE (ambient_c f)) /\
  lookup "mic" d = Some (DATA_STRING "CRC").
Proof.
  unfold lookup, data_make, data_args, arg_included.
  cbn [filter arg_cond negb].
  destruct (is_docked f =? 0), (is_probe f =? 0), (is_booster f =? 0);
    repeat split; reflexivity.
Qed.

(** The values of the flag fields, when they are there. *)
Lemma record_flag_values f :
  let d := data_make (data_args f) in
  lookup "is_docked" d
  = (if is_docked f =? 0 then None else Some (DATA_INT (is_docked f))) /\
  lookup "is_probe" d
  = (if is_probe f =? 0 then None else Some (DATA_INT (is_probe f))) /\
  lookup "is_booster" d
  = (if is_booster f =? 0 then None else Some (DATA_INT (is_booster f))).
Proof.
  unfold lookup, data_make, data_args, arg_included.
  cbn [filter arg_cond negb].
  destruct (is_docked f =? 0), (is_probe f =? 0), (is_booster f =? 0);
    repeat split; reflexivity.
Qed.

Lemma is_white_value b :
  is_window b = true ->
  is_white (extract_fields b) = of_bool (Z.testbit (at_ b 1) 4).
Proof.
  intros H. pose proof (is_window_at b 1 H) as H1.
  cbn [extract_fields is_white]. apply Z.eqb_eq.
  revert H1. generalize (at_ b 1).
  apply (forall_uint8
           (fun x => to_int8 (Z.shiftr (Z.land x 0x10) 4)
                     =? of_bool (Z.testbit x 4))).
  now vm_compute.
Qed.

End Record.

(** X8.  Every record that the registered decode function emits has field
    names that are, in this order and without repetition, among the
    [output_fields] that the device declares; the six fields model, id,
    color, temperature_int_C, temperature_amb_C and mic are in every
    record. *)
Theorem emitted_keys_declared bitbuffer d :
  In d (output (Device.decode_fn Device.thermopro_tp86xb bitbuffer)) ->
  is_subseq (keys d) (Device.fields Device.thermopro_tp86xb) = true /\
  NoDup (keys d) /\
  (forall k,
     In k ["model"; "id"; "color"; "temperature_int_C"; "temperature_amb_C";
           "mic"] ->
     has_key k d = true).
Proof.
  cbn [Device.decode_fn Device.fields Device.thermopro_tp86xb].
  intros H. destruct (output_inv _ _ H) as (b & _ & _ & _ & ->).
  destruct (record_keys_declared (extract_fields b)) as [Hs Hn].
  split; [exact Hs|]. split; [exact Hn|].
  intros k Hk. now apply record_fixed_keys.
Qed.

Lemma emitted_keys_declared_witness :
  output (thermopro_tp86xb_decode example_buffer)
  = [data_make (data_args (extract_fields example_window))] /\
  is_subseq (keys (data_make (data_args (extract_fields example_window))))
            Device.output_fields = true.
Proof.
  split; [vm_compute; reflexivity|].
  apply (emitted_keys_declared
           example_buffer
           (data_make (data_args (extract_fields example_window)))).
  vm_compute. left. reflexivity.
Defined.

(** X9.  In the record of a decoded frame, model is "ThermoPro-TempSpikeXR"
    and mic is "CRC"; id is byte 0 of the window; color is "white" when bit
    0x10 of byte 1 is set and "black" otherwise; the two temperatures are
    the conversions of the raw values; and the flag fields is_docked,
    is_probe and is_booster are absent when the flag is clear and hold 1
    when it is set. *)
Theorem record_contents bitbuffer :
  ret (thermopro_tp86xb_decode bitbuffer) = RETURN 1 ->
  exists b d,
    locate_window bitbuffer = inr b /\
    output (thermopro_tp86xb_decode bitbuffer) = [d] /\
    lookup "model" d = Some (DATA_STRING "ThermoPro-TempSpikeXR") /\
    lookup "mic" d = Some (DATA_STRING "CRC") /\
    lookup "id" d = Some (DATA_INT (at_ b 0)) /\
    lookup "color" d
    = Some (DATA_STRING (if Z.testbit (at_ b 1) 4 then "white" else "black")) /\
    lookup "temperature_int_C" d
    = Some (DATA_DOUBLE (raw_to_celsius (at_ b 2 * 16 + at_ b 3 / 16))) /\
    lookup "temperature_amb_C" d
    = Some (DATA_DOUBLE (raw_to_celsius ((at_ b 3 mod 16) * 256 + at_ b 4))) /\
    lookup "is_docked" d
    = (if Z.testbit (at_ b 1) 6 then Some (DATA_INT 1) else None) /\
    lookup "is_probe" d
    = (if Z.land (at_ b 6) 0x0c =? 0x0c then Some (DATA_INT 1) else None) /\
    lookup "is_booster" d
    = (if Z.land (at_ b 5) 0xc0 =? 0xc0 then Some (DATA_INT 1) else None).
Proof.
  intros H.
  destruct (decode_success_inv bitbuffer H) as (b & Hloc & Hw & Hv & Hemit).
  exists b, (data_make (data_args (extract_fields b))).
  split; [exact Hloc|]. split; [now rewrite Hemit|].
  destruct (record_fixed_values (extract_fields b))
    as (E1 & E2 & E3 & E4 & E5 & E6).
  destruct (record_flag_values (extract_fields b)) as (F1 & F2 & F3).
  rewrite E1, E2, E3, E4, E5, E6, F1, F2, F3.
  rewrite (is_white_value b Hw), (is_docked_value b Hw).
  rewrite is_probe_value, is_booster_value.
  assert (Eid : id (extract_fields b) = at_ b 0)
    by (apply to_uint8_id, is_window_at, Hw).
  assert (Ei : internal_c (extract_fields b)
               = raw_to_celsius (at_ b 2 * 16 + at_ b 3 / 16)).
  { cbn [extract_fields internal_c].
    now rewrite internal_raw_bytes by (apply is_window_at, Hw). }
  assert (Ea : ambient_c (extract_fields b)
               = raw_to_celsius ((at_ b 3 mod 16) * 256 + at_ b 4)).
  { cbn [extract_fields ambient_c].
    now rewrite ambient_raw_bytes by (apply is_window_at, Hw). }
  rewrite Eid, Ei, Ea.
  destruct (Z.testbit (at_ b 1) 4), (Z.testbit (at_ b 1) 6),
    (Z.land (at_ b 6) 12 =? 12), (Z.land (at_ b 5) 192 =? 192);
    repeat split; reflexivity.
Qed.

Lemma record_contents_witness :
  ret (thermopro_tp86xb_decode example_buffer) = RETURN 1 /\
  exists b d,
    locate_window example_buffer = inr b /\
    output (thermopro_tp86xb_decode example_buffer) = [d] /\
    lookup "model" d = Some (DATA_STRING "ThermoPro-TempSpikeXR").
Proof.
  split; [vm_compute; reflexivity|].
  destruct (record_contents example_buffer) as (b & d & H1 & H2 & H3 & _).
  - vm_compute. reflexivity.
  - exists b, d. repeat split; assumption.
Defined.

(** ** Further properties: the checksum *)

Section Checksum.

Lemma lxor_self_cancel x v : Z.lxor x (Z.lxor x v) = v.
Proof. now rewrite <- Z.lxor_assoc, Z.lxor_nilpotent, Z.lxor_0_l. Qed.

Lemma lxor_move c s k t :
  Z.lxor (Z.lxor (Z.lxor c s) k) t = Z.lxor (Z.lxor (Z.lxor c k) t) s.
Proof.
  apply Z.bits_inj'. intros n _. rewrite !Z.lxor_spec.
  now destruct (Z.testbit c n), (Z.testbit s n), (Z.testbit k n),
    (Z.testbit t n).
Qed.

Ltac window_ranges :=
  cbn [forallb];
  repeat match goal with
         | H : is_uint8 ?x = true |- context [is_uint8 ?x] => rewrite H
         end;
  reflexivity.

(** A window stays a window when one of its bytes is replaced by a byte. *)
Lemma set_byte_is_window b i v :
  is_window b = true -> (i < 9)%nat -> is_uint8 v = true ->
  is_window (set_byte b i v) = true.
Proof.
  intros H Hi Hv.
  apply is_window_inv in H.
  destruct H as (b0 & b1 & b2 & b3 & b4 & b5 & b6 & b7 & b8 & -> & H).
  destruct H as (H0 & H1 & H2 & H3 & H4 & H5 & H6 & H7 & H8).
  do 9 (destruct i as [|i];
        [ unfold set_byte, is_window; cbn [firstn skipn app];
          apply andb_true_iff; split; [reflexivity|window_ranges] |]).
  lia.
Qed.

(** The CRC covers bytes 0 to 6: bytes 7 and 8 do not enter it. *)
Lemma calc_crc_set_trailer b i v :
  is_window b = true -> (7 <= i)%nat ->
  calc_crc (set_byte b i v) = calc_crc b.
Proof.
  intros H Hi. apply is_window_inv in H.
  destruct H as (b0 & b1 & b2 & b3 & b4 & b5 & b6 & b7 & b8 & -> & _).
  unfold calc_crc, crc8, set_byte. change (Z.to_nat 7) with 7%nat.
  do 7 (destruct i as [|i]; [lia|]).
  destruct i as [|[|i]]; cbn [firstn skipn app]; reflexivity.
Qed.

(** Replacing a payload byte changes the CRC by the syndrome of the
    difference. *)
Lemma crc8_set_byte b i v :
  is_window b = true -> (i < 7)%nat -> is_uint8 v = true ->
  crc8 (set_byte b i v) 7 0x07 0x00
  = Z.lxor (crc8 b 7 0x07 0x00)
           (syndrome 0x07 (Z.lxor (at_ b i) v) (6 - i)).
Proof.
  intros H Hi Hv.
  apply is_window_inv in H.
  destruct H as (b0 & b1 & b2 & b3 & b4 & b5 & b6 & b7 & b8 & -> & H).
  destruct H as (H0 & H1 & H2 & H3 & H4 & H5 & H6 & H7 & H8).
  unfold crc8, set_byte, at_. change (Z.to_nat 7) with 7%nat.
  destruct i as [|[|[|[|[|[|[|i]]]]]]]; [..|lia];
    cbn [firstn skipn app nth Nat.sub];
    match goal with
    | |- context [syndrome _ (Z.lxor ?x v) _] =>
        let e := fresh "e" in
        set (e := Z.lxor x v);
        assert (He : is_uint8 e = true) by (now apply lxor_uint8);
        assert (Ev : v = Z.lxor x e)
          by (subst e; symmetry; apply lxor_self_cancel);
        clearbody e; subst v
    end.
  - apply (fold_crc8_flip [] b0 _ [b1; b2; b3; b4; b5; b6] 0);
      try assumption; try reflexivity; window_ranges.
  - apply (fold_crc8_flip [b0] b1 _ [b2; b3; b4; b5; b6] 0);
      try assumption; try reflexivity; window_ranges.
  - apply (fold_crc8_flip [b0; b1] b2 _ [b3; b4; b5; b6] 0);
      try assumption; try reflexivity; window_ranges.
  - apply (fold_crc8_flip [b0; b1; b2] b3 _ [b4; b5; b6] 0);
      try assumption; try reflexivity; window_ranges.
  - apply (fold_crc8_flip [b0; b1; b2; b3] b4 _ [b5; b6] 0);
      try assumption; try reflexivity; window_ranges.
  - apply (fold_crc8_flip [b0; b1; b2; b3; b4] b5 _ [b6] 0);
      try assumption; try reflexivity; window_ranges.
  - apply (fold_crc8_flip [b0; b1; b2; b3; b4; b5] b6 _ [] 0);
      try assumption; try reflexivity; window_ranges.
Qed.

Lemma set_byte_at_7 b i v :
  is_window b = true -> (i < 7)%nat -> at_ (set_byte b i v) 7 = at_ b 7.
Proof.
  intros H Hi. apply is_window_inv in H.
  destruct H as (b0 & b1 & b2 & b3 & b4 & b5 & b6 & b7 & b8 & -> & _).
  unfold set_byte, at_.
  destruct i as [|[|[|[|[|[|[|i]]]]]]]; [..|lia]; reflexivity.
Qed.

(** No non-zero change of one of 7 bytes has syndrome zero. *)
Lemma syndrome_byte e k :
  is_uint8 e = true -> e <> 0 -> (k < 7)%nat -> syndrome 0x07 e k <> 0.
Proof.
  intros He Hne Hk.
  assert (H := forall_uint8
    (fun e => (e =? 0)
              || forallb (fun k => negb (syndrome 0x07 e k =? 0)) (seq 0 7))
    ltac:(now vm_compute) e He).
  cbv beta in H. apply orb_true_iff in H. destruct H as [H | H].
  - apply Z.eqb_eq in H. contradiction.
  - rewrite forallb_forall in H. specialize (H k).
    rewrite in_seq in H. specialize (H ltac:(lia)).
    now apply negb_true_iff, Z.eqb_neq in H.
Qed.

Lemma valid_window_residual b :
  is_window b = true -> valid_window b = true <-> residual b = 0.
Proof.
  intros H. rewrite (valid_window_crc b H). unfold residual.
  now rewrite Z.lxor_eq_0_iff.
Qed.

(** A window that is not valid fails at line 88. *)
Lemma invalid_window_mismatch b :
  is_window b = true -> residual b <> 0 ->
  valid_window b = false /\ decode_window b = ChecksumMismatch b.
Proof.
  intros Hw Hr.
  assert (Hne : calc_crc b <> at_ b 7).
  { intros E. apply Hr. unfold residual. rewrite E. apply Z.lxor_nilpotent. }
  split.
  - destruct (valid_window b) eqn:E; [|reflexivity].
    apply (valid_window_crc b Hw) in E. contradiction.
  - rewrite (decode_window_crc b Hw).
    apply Z.eqb_neq in Hne. now rewrite Hne.
Qed.

Lemma flip_bit_is_window_any b i j :
  is_window b = true -> (i < 9)%nat -> 0 <= j < 8 ->
  is_window (flip_bit b i j) = true.
Proof.
  intros H Hi Hj.
  apply (set_byte_is_window b i (Z.lxor (at_ b i) (Z.shiftl 1 j)) H Hi).
  apply lxor_uint8; [now apply is_window_at|now apply single_bit_uint8].
Qed.

(** Flipping a bit of one of the bytes 0 to 7 changes the residual by the
    syndrome of its position. *)
Lemma residual_flip_bit b i j :
  is_window b = true -> (i <= 7)%nat -> 0 <= j < 8 ->
  residual (flip_bit b i j)
  = Z.lxor (residual b) (position_syndrome i j).
Proof.
  intros H Hi Hj. unfold residual, position_syndrome.
  destruct (Nat.eqb_spec i 7) as [-> | Hne].
  - change (flip_bit b 7 j)
      with (set_byte b 7 (Z.lxor (at_ b 7) (Z.shiftl 1 j))).
    rewrite calc_crc_set_trailer by (assumption || lia).
    apply is_window_inv in H.
    destruct H as (b0 & b1 & b2 & b3 & b4 & b5 & b6 & b7 & b8 & -> & _).
    unfold set_byte, at_. cbn [firstn skipn app nth].
    now rewrite Z.lxor_assoc.
  - rewrite flip_bit_at_7 by (assumption || lia).
    rewrite !calc_crc_value, crc8_flip_bit by (assumption || lia).
    apply lxor_move.
Qed.

(** The 64 bit positions of bytes 0 to 7 have pairwise different, non-zero
    syndromes. *)
Lemma position_syndromes_distinct i1 j1 i2 j2 :
  (i1 <= 7)%nat -> (i2 <= 7)%nat -> 0 <= j1 < 8 -> 0 <= j2 < 8 ->
  i1 <> i2 \/ j1 <> j2 ->
  Z.lxor (position_syndrome i1 j1) (position_syndrome i2 j2) <> 0.
Proof.
  intros Hi1 Hi2 Hj1 Hj2 Hne.
  assert (H : forallb (fun i1 => forallb (fun j1 =>
                forallb (fun i2 => forallb (fun j2 =>
                  ((i1 =? i2)%nat && (j1 =? j2))
                  || negb (Z.lxor (position_syndrome i1 j1)
                                  (position_syndrome i2 j2) =? 0))
                (zrange 8)) (seq 0 8)) (zrange 8)) (seq 0 8) = true)
    by now vm_compute.
  rewrite forallb_forall in H.
  specialize (H i1). rewrite in_seq in H. specialize (H ltac:(lia)).
  rewrite forallb_forall in H.
  specialize (H j1 (in_zrange 8 j1 ltac:(lia))).
  rewrite forallb_forall in H.
  specialize (H i2). rewrite in_seq in H. specialize (H ltac:(lia)).
  rewrite forallb_forall in H.
  specialize (H j2 (in_zrange 8 j2 ltac:(lia))).
  apply orb_true_iff in H. destruct H as [H | H].
  - apply andb_true_iff in H. destruct H as [E1 E2].
    apply Nat.eqb_eq in E1. apply Z.eqb_eq in E2. tauto.
  - now apply negb_true_iff, Z.eqb_neq in H.
Qed.

End Checksum.

(** X10.  For every payload (bytes 0 to 6) and every byte 8 there is exactly
    one value of byte 7 with which the window passes validation, the value
    that line 87 computes; with any other byte 7 the decoder fails with the
    log line "Integrity check failed". *)
Theorem checksum_byte_unique b v :
  is_window b = true -> is_uint8 v = true ->
  is_uint8 (calc_crc b) = true /\
  (valid_window (set_byte b 7 v) = true <-> v = calc_crc b) /\
  (v <> calc_crc b ->
   decode_window (set_byte b 7 v) = ChecksumMismatch (set_byte b 7 v)).
Proof.
  intros Hw Hv.
  pose proof (set_byte_is_window b 7 v Hw ltac:(lia) Hv) as Hw'.
  assert (E7 : at_ (set_byte b 7 v) 7 = v).
  { apply is_window_inv in Hw.
    destruct Hw as (b0 & b1 & b2 & b3 & b4 & b5 & b6 & b7 & b8 & -> & _).
    reflexivity. }
  assert (Ec : calc_crc (set_byte b 7 v) = calc_crc b)
    by (apply calc_crc_set_trailer; [assumption|lia]).
  split; [apply to_uint8_range|].
  split.
  - rewrite (valid_window_crc _ Hw'), Ec, E7. split; congruence.
  - intros Hne. apply invalid_window_mismatch; [exact Hw'|].
    unfold residual. rewrite Ec, E7. rewrite Z.lxor_eq_0_iff. congruence.
Qed.

Lemma checksum_byte_unique_witness :
  set_byte example_window 7 0xa9
  = [0x9c; 0x9a; 0x2b; 0xc2; 0xc5; 0x0b; 0x1f; 0xa9; 0x57] /\
  calc_crc example_window = 0xa8 /\
  decode_window (set_byte example_window 7 0xa9)
  = ChecksumMismatch (set_byte example_window 7 0xa9).
Proof.
  split; [vm_compute; reflexivity|]. split; [vm_compute; reflexivity|].
  apply (checksum_byte_unique example_window 0xa9).
  - vm_compute. reflexivity.
  - vm_compute. reflexivity.
  - vm_compute. discriminate.
Defined.

(** X11.  In a window that passes validation, replacing any one of the
    bytes 0 to 6 by a different byte value gives a window that fails with
    ChecksumMismatch: every error confined to one payload byte is detected.
    ([crc8] is the bit-by-bit CRC-8 as modelled from its description.) *)
Theorem single_byte_change_detected b i v :
  is_window b = true -> valid_window b = true ->
  (i < 7)%nat -> is_uint8 v = true -> v <> at_ b i ->
  valid_window (set_byte b i v) = false /\
  decode_window (set_byte b i v) = ChecksumMismatch (set_byte b i v).
Proof.
  intros Hw Hv Hi Hu Hne.
  apply invalid_window_mismatch.
  - apply set_byte_is_window; (assumption || lia).
  - apply (valid_window_residual b Hw) in Hv.
    unfold residual in *.
    rewrite set_byte_at_7 by assumption.
    rewrite calc_crc_value in *. rewrite crc8_set_byte by assumption.
    rewrite lxor_move, Hv, Z.lxor_0_l.
    apply syndrome_byte; [| |lia].
    + apply lxor_uint8; [now apply is_window_at|assumption].
    + rewrite Z.lxor_eq_0_iff. congruence.
Qed.

Lemma single_byte_change_detected_witness :
  valid_window example_window = true /\
  set_byte example_window 4 0x3a
  = [0x9c; 0x9a; 0x2b; 0xc2; 0x3a; 0x0b; 0x1f; 0xa8; 0x57] /\
  decode_window (set_byte example_window 4 0x3a)
  = ChecksumMismatch (set_byte example_window 4 0x3a).
Proof.
  split; [vm_compute; reflexivity|]. split; [vm_compute; reflexivity|].
  apply (single_byte_change_detected example_window 4 0x3a);
    try (vm_compute; reflexivity); try lia.
  vm_compute. discriminate.
Defined.

(** X12.  In a window that passes validation, flipping any two different
    bits of the bytes 0 to 7 (payload or checksum byte) gives a window that
    fails with ChecksumMismatch: every double-bit error in the 64 checked
    bits is detected.  ([crc8] is the bit-by-bit CRC-8 as modelled from its
    description.) *)
Theorem double_bit_flip_detected b i1 j1 i2 j2 :
  is_window b = true -> valid_window b = true ->
  (i1 <= 7)%nat -> (i2 <= 7)%nat -> 0 <= j1 < 8 -> 0 <= j2 < 8 ->
  i1 <> i2 \/ j1 <> j2 ->
  valid_window (flip_bit (flip_bit b i1 j1) i2 j2) = false /\
  decode_window (flip_bit (flip_bit b i1 j1) i2 j2)
  = ChecksumMismatch (flip_bit (flip_bit b i1 j1) i2 j2).
Proof.
  intros Hw Hv Hi1 Hi2 Hj1 Hj2 Hne.
  pose proof (flip_bit_is_window_any b i1 j1 Hw ltac:(lia) Hj1) as Hw1.
  pose proof (flip_bit_is_window_any _ i2 j2 Hw1 ltac:(lia) Hj2) as Hw2.
  apply invalid_window_mismatch; [exact Hw2|].
  rewrite !residual_flip_bit by assumption.
  apply (valid_window_residual b Hw) in Hv. rewrite Hv, Z.lxor_0_l.
  now apply position_syndromes_distinct.
Qed.

Lemma double_bit_flip_detected_witness :
  valid_window example_window = true /\
  flip_bit (flip_bit example_window 0 7) 7 0
  = [0x1c; 0x9a; 0x2b; 0xc2; 0xc5; 0x0b; 0x1f; 0xa9; 0x57] /\
  decode_window (flip_bit (flip_bit example_window 0 7) 7 0)
  = ChecksumMismatch (flip_bit (flip_bit example_window 0 7) 7 0).
Proof.
  split; [vm_compute; reflexivity|]. split; [vm_compute; reflexivity|].
  apply (double_bit_flip_detected example_window 0 7 7 0);
    try (vm_compute; reflexivity); try lia.
Defined.
